(** * The WebSocket connection hub and the presence counter

    A shallow embedding of [core/websocket_manager.py] (class
    [ConnectionManager]) and of the SQL statements of
    [core/presence_service.py] (methods [update_presence], [is_user_online]
    and [cleanup_stale_presence] of [PresenceService]), followed by the
    properties of the hub that the specification states and by further
    properties of the hub and of the presence table.

    Python objects are modelled as follows.
    - A [WebSocket] is an object compared by identity: a [positive] names it.
    - A [dict] is a [gmap]; a Python [list] is a [list].  The lists stored in
      [connections] and [session_watchers] are mutated in place by the
      source; the embedding writes the mutated list back under its key,
      which is what every holder of the dictionary observes.  A [gmap] is
      iterated in the order of its keys and a [dict] in the order of
      insertion: what is written for several users is stated up to the
      order of the events.
    - A method of the manager is a computation in [Py], a state and
      exception monad over the manager's four dictionaries and the trace of
      what was written to the transports.  [try]/[except] is [try_except];
      the state reached when an exception is raised is kept, as in Python.
    - The collaborators that are not part of the class (the role lookup of
      [core.auth], the [chat_sessions] table, the network behind a socket)
      are the fields of [Collaborators]; every definition and theorem is
      parameterised by them.
    - Calls run one at a time: the lock and the interleaving of coroutines
      at an [await] are not modelled, and neither is logging. *)

From stdpp Require Import gmap strings list fin_maps.
From Stdlib Require Import ZArith Lia.

Open Scope Z_scope.

(** ** Exceptions and outcomes *)

(** Instances of Python's [Exception] class.  [KeyError] and [ValueError]
    are the two that the dictionary and list primitives raise; any other
    one carries its class name. *)
Inductive PyExc : Type :=
  | KeyError
  | ValueError
  | OtherError (name : string).

(** The result of running a method: it returns, it raises, or the
    embedding's iteration bound was hit.  [OutOfFuel] is no Python
    behaviour: [run_call_returns] shows that no method of the class ends
    that way. *)
Inductive Outcome (A : Type) : Type :=
  | Return (a : A)
  | Raise (e : PyExc)
  | OutOfFuel.
Arguments Return {A} a.
Arguments Raise {A} e.
Arguments OutOfFuel {A}.

(** ** Pure parts of Python's container primitives *)

(** [k in d] *)
Definition contains `{Countable K} {V} (d : gmap K V) (k : K) : bool :=
  bool_decide (is_Some (d !! k)).

(** The list without the first element equal to [x]: what [l.remove(x)]
    leaves when [x] occurs in [l]. *)
Fixpoint remove_first `{EqDecision A} (x : A) (l : list A) : list A :=
  match l with
  | [] => []
  | y :: l' => if decide (y = x) then l' else y :: remove_first x l'
  end.

(** Truthiness of a list and of a dictionary ([not l], [not d]). *)
Definition list_truthy {A} (l : list A) : bool :=
  match l with [] => false | _ :: _ => true end.

Definition dict_truthy `{Countable K} {V} (d : gmap K V) : bool :=
  negb (bool_decide (d = ∅)).

(** ** The manager's state *)

Definition WebSocket : Type := positive.
Definition Message : Type := list (string * string).

(** The four dictionaries of [ConnectionManager.__init__]. *)
Record ConnectionManager : Type := mkManager {
  connections : gmap Z (list WebSocket);
  user_sessions : gmap Z (gmap string WebSocket);
  session_watchers : gmap string (list Z);
  user_roles : gmap Z string
}.

Definition set_connections (c : gmap Z (list WebSocket)) (s : ConnectionManager) :=
  mkManager c (user_sessions s) (session_watchers s) (user_roles s).
Definition set_user_sessions (u : gmap Z (gmap string WebSocket)) (s : ConnectionManager) :=
  mkManager (connections s) u (session_watchers s) (user_roles s).
Definition set_session_watchers (w : gmap string (list Z)) (s : ConnectionManager) :=
  mkManager (connections s) (user_sessions s) w (user_roles s).
Definition set_user_roles (r : gmap Z string) (s : ConnectionManager) :=
  mkManager (connections s) (user_sessions s) (session_watchers s) r.

(** [ConnectionManager()] *)
Definition new_manager : ConnectionManager := mkManager ∅ ∅ ∅ ∅.

(** What was asked of the transports, oldest first.  [ok] tells whether the
    call returned ([true]) or raised ([false]). *)
Inductive WireEvent : Type :=
  | SendJson (ws : WebSocket) (message : Message) (ok : bool)
  | CloseSocket (ws : WebSocket) (code : Z) (reason : string) (ok : bool).

Record World : Type := mkWorld {
  hub : ConnectionManager;
  wire : list WireEvent
}.

(** ** The collaborators *)

(** The answer of the [chat_sessions] query of [_get_session_user_id]. *)
Inductive DbReply : Type :=
  | NoConnection                (* [get_db_connection()] is falsy *)
  | QueryRaises (e : PyExc)     (* connecting or querying raises *)
  | NoRow                       (* [fetchone()] is [None] *)
  | Row (user_id : option Z).   (* a row; its column may be NULL *)

Record Collaborators : Type := mkCollaborators {
  (* [core.auth.get_effective_role]: the role, or the exception raised *)
  get_effective_role : Z → string + PyExc;
  (* [SELECT user_id FROM chat_sessions WHERE session_id = ? LIMIT 1] *)
  select_session_user : string → DbReply;
  (* [websocket.send_json]: [None] when it returns, the exception when it
     raises; the answer may depend on everything sent so far *)
  transport_send : list WireEvent → WebSocket → Message → option PyExc;
  (* [websocket.close] *)
  transport_close : list WireEvent → WebSocket → option PyExc
}.

(** ** The monad *)

Definition Py (A : Type) : Type := World → Outcome A * World.

Definition ret {A} (a : A) : Py A := λ w, (Return a, w).

Definition bind {A B} (c : Py A) (k : A → Py B) : Py B :=
  λ w, match c w with
       | (Return a, w') => k a w'
       | (Raise e, w') => (Raise e, w')
       | (OutOfFuel, w') => (OutOfFuel, w')
       end.

Declare Scope py_scope.
Delimit Scope py_scope with py.
Notation "'let*' x := c 'in' k" := (bind c (λ x, k))
  (at level 10, x name, c at level 100, k at level 200) : py_scope.
Notation "c ;;; k" := (bind c (λ _, k))
  (at level 100, k at level 200, right associativity) : py_scope.
Open Scope py_scope.

Definition raise {A} (e : PyExc) : Py A := λ w, (Raise e, w).

Definition out_of_fuel {A} : Py A := λ w, (OutOfFuel, w).

(** [d[k]], raising [KeyError] on a missing key. *)
Definition getitem `{Countable K} {V} (d : gmap K V) (k : K) : Py V :=
  match d !! k with
  | Some v => ret v
  | None => raise KeyError
  end.

(** The dictionary after [del d[k]], raising [KeyError] on a missing key. *)
Definition delitem `{Countable K} {V} (d : gmap K V) (k : K) : Py (gmap K V) :=
  match d !! k with
  | Some _ => ret (delete k d)
  | None => raise KeyError
  end.

(** The list after [l.remove(x)], raising [ValueError] when [x] is not in
    [l]. *)
Definition list_remove `{EqDecision A} (x : A) (l : list A) : Py (list A) :=
  if bool_decide (x ∈ l) then ret (remove_first x l) else raise ValueError.

(** [try: body  except Exception as e: handler e] *)
Definition try_except {A} (body : Py A) (handler : PyExc → Py A) : Py A :=
  λ w, match body w with
       | (Raise e, w') => handler e w'
       | r => r
       end.

(** [self] *)
Definition get_self : Py ConnectionManager := λ w, (Return (hub w), w).

Definition update_self (f : ConnectionManager → ConnectionManager) : Py unit :=
  λ w, (Return tt, mkWorld (f (hub w)) (wire w)).

(** [for x in xs: body x], over a sequence that the body does not mutate. *)
Fixpoint for_each {A} (xs : list A) (body : A → Py unit) : Py unit :=
  match xs with
  | [] => ret tt
  | x :: xs' => body x ;;; for_each xs' body
  end.

(** A [for] loop whose body updates local variables, threaded as [acc]. *)
Fixpoint for_fold {A L} (xs : list A) (acc : L) (body : L → A → Py L) : Py L :=
  match xs with
  | [] => ret acc
  | x :: xs' => let* acc' := body acc x in for_fold xs' acc' body
  end.

Definition when (b : bool) (c : Py unit) : Py unit := if b then c else ret tt.

(** ** The methods of [ConnectionManager] *)

Section Hub.

Variable env : Collaborators.

(** [await websocket.send_json(message)] *)
Definition send_json (websocket : WebSocket) (message : Message) : Py unit :=
  λ w, match transport_send env (wire w) websocket message with
       | None =>
           (Return tt, mkWorld (hub w) (wire w ++ [SendJson websocket message true]))
       | Some e =>
           (Raise e, mkWorld (hub w) (wire w ++ [SendJson websocket message false]))
       end.

(** [await ws.close(code=..., reason=...)] *)
Definition close (ws : WebSocket) (code : Z) (reason : string) : Py unit :=
  λ w, match transport_close env (wire w) ws with
       | None =>
           (Return tt, mkWorld (hub w) (wire w ++ [CloseSocket ws code reason true]))
       | Some e =>
           (Raise e, mkWorld (hub w) (wire w ++ [CloseSocket ws code reason false]))
       end.

Definition _get_user_role (user_id : Z) : Py string :=
  try_except
    (match get_effective_role env user_id with
     | inl role => ret role
     | inr e => raise e
     end)
    (λ _, ret "mentorado").

Definition _get_session_user_id (session_id : string) : Py (option Z) :=
  try_except
    (match select_session_user env session_id with
     | NoConnection => ret None
     | QueryRaises e => raise e
     | NoRow => ret None
     | Row user_id => ret user_id
     end)
    (λ _, ret None).

Definition connect (user_id : Z) (websocket : WebSocket)
    (session_id : option string) : Py unit :=
  let* self := get_self in
  when (negb (contains (connections self) user_id))
    (update_self (λ s, set_connections (<[user_id := []]> (connections s)) s) ;;;
     let* role := _get_user_role user_id in
     update_self (λ s, set_user_roles (<[user_id := role]> (user_roles s)) s)) ;;;
  let* self := get_self in
  let* sockets := getitem (connections self) user_id in
  update_self
    (λ s, set_connections (<[user_id := sockets ++ [websocket]]> (connections s)) s) ;;;
  match session_id with
  | Some sid =>
      (* [if session_id:] is false for the empty string as well *)
      when (negb (bool_decide (sid = EmptyString)))
        (let* self := get_self in
         when (negb (contains (user_sessions self) user_id))
           (update_self
              (λ s, set_user_sessions (<[user_id := ∅]> (user_sessions s)) s)) ;;;
         let* self := get_self in
         let* mine := getitem (user_sessions self) user_id in
         update_self
           (λ s, set_user_sessions
                   (<[user_id := <[sid := websocket]> mine]> (user_sessions s)) s))
  | None => ret tt
  end.

(** [disconnect] has three parts, which the source runs one after the
    other under the lock: the connection list (with the role cache), the
    session index, the watchers. *)
Definition disconnect_connection (user_id : Z) (websocket : WebSocket) : Py unit :=
  let* self := get_self in
  when (contains (connections self) user_id)
    (try_except
       (let* self := get_self in
        let* sockets := getitem (connections self) user_id in
        let* sockets' := list_remove websocket sockets in
        update_self
          (λ s, set_connections (<[user_id := sockets']> (connections s)) s) ;;;
        let* self := get_self in
        let* sockets := getitem (connections self) user_id in
        let remaining := length sockets in
        when (bool_decide (remaining = 0%nat))
          (let* self := get_self in
           let* conns := delitem (connections self) user_id in
           update_self (set_connections conns) ;;;
           let* self := get_self in
           when (contains (user_roles self) user_id)
             (let* roles := delitem (user_roles self) user_id in
              update_self (set_user_roles roles))))
       (λ e, match e with
             | ValueError => ret tt
             | _ => raise e
             end)).

Definition disconnect_sessions (user_id : Z) (websocket : WebSocket) : Py unit :=
  let* self := get_self in
  when (contains (user_sessions self) user_id)
    (let* mine := getitem (user_sessions self) user_id in
     let to_remove :=
       (filter (λ kv, kv.2 = websocket) (map_to_list mine)).*1 in
     for_each to_remove
       (λ sid,
          let* self := get_self in
          let* mine := getitem (user_sessions self) user_id in
          let* mine' := delitem mine sid in
          update_self
            (λ s, set_user_sessions (<[user_id := mine']> (user_sessions s)) s)) ;;;
     let* self := get_self in
     let* mine := getitem (user_sessions self) user_id in
     when (negb (dict_truthy mine))
       (let* self := get_self in
        let* sessions := delitem (user_sessions self) user_id in
        update_self (set_user_sessions sessions))).

(** The body of the loop over [list(self.session_watchers.items())]: the
    snapshot holds the keys and the list objects, and the list under a key
    is only mutated in that key's own iteration. *)
Definition disconnect_watcher (user_id : Z) (item : string * list Z) : Py unit :=
  let session_id := item.1 in
  let watchers := item.2 in
  when (bool_decide (user_id ∈ watchers))
    (let* watchers' := list_remove user_id watchers in
     update_self
       (λ s, set_session_watchers
               (<[session_id := watchers']> (session_watchers s)) s) ;;;
     when (negb (list_truthy watchers'))
       (let* self := get_self in
        let* ws := delitem (session_watchers self) session_id in
        update_self (set_session_watchers ws))).

Definition disconnect_watchers (user_id : Z) : Py unit :=
  let* self := get_self in
  for_each (map_to_list (session_watchers self)) (disconnect_watcher user_id).

Definition disconnect (user_id : Z) (websocket : WebSocket) : Py unit :=
  disconnect_connection user_id websocket ;;;
  disconnect_sessions user_id websocket ;;;
  disconnect_watchers user_id.

Definition send_to_user (user_id : Z) (message : Message) : Py unit :=
  let* self := get_self in
  if negb (contains (connections self) user_id) then ret tt
  else
    let* sockets := getitem (connections self) user_id in
    let* dead_sockets :=
      for_fold sockets []
        (λ dead_sockets websocket,
           try_except
             (send_json websocket message ;;; ret dead_sockets)
             (λ _, ret (dead_sockets ++ [websocket]))) in
    for_each dead_sockets (λ ws, disconnect user_id ws).

(** [for admin_id in self.session_watchers[session_id]: body admin_id].
    The list object is iterated by position while [body] may shrink it
    (a reaped admin is taken out of every watcher list), so the element at
    index [i] is read from the list as it is when the iterator gets there.
    The object stays under [session_id] until it is empty, and is then
    deleted: its contents are the dictionary's entry, or nothing.  [fuel]
    bounds the number of iterations. *)
Fixpoint for_each_watcher (fuel : nat) (session_id : string) (i : nat)
    (body : Z → Py unit) : Py unit :=
  let* self := get_self in
  match default [] (session_watchers self !! session_id) !! i with
  | None => ret tt
  | Some admin_id =>
      match fuel with
      | O => out_of_fuel
      | S fuel' =>
          body admin_id ;;; for_each_watcher fuel' session_id (S i) body
      end
  end.

Definition send_to_session (session_id : string) (message : Message)
    (exclude_user : option Z) : Py unit :=
  let* session_user_id := _get_session_user_id session_id in
  match session_user_id with
  | None => ret tt
  | Some owner =>
      (* [if not session_user_id] also holds for the id 0 *)
      if bool_decide (owner = 0) then ret tt
      else
        when (bool_decide (Some owner ≠ exclude_user))
          (send_to_user owner message) ;;;
        let* self := get_self in
        when (contains (session_watchers self) session_id)
          (let* watchers := getitem (session_watchers self) session_id in
           for_each_watcher (length watchers) session_id 0
             (λ admin_id,
                when (bool_decide (Some admin_id ≠ exclude_user))
                  (send_to_user admin_id message)))
  end.

(** The list [target_users] of [broadcast_to_role]. *)
Definition broadcast_to_role_targets (role : string) (self : ConnectionManager)
  : list Z :=
  (filter (λ kv, kv.2 = role ∨ role = "all") (map_to_list (user_roles self))).*1.

(** The users that [broadcast_all] makes a task for. *)
Definition broadcast_all_targets (self : ConnectionManager) : list Z :=
  (map_to_list (connections self)).*1.

(** [asyncio.gather] with [return_exceptions=True], scheduled one task
    after the other: an exception of a task is its result, not raised. *)
Definition gather (tasks : list (Py unit)) : Py unit :=
  for_each tasks (λ task, try_except task (λ _, ret tt)).

Definition broadcast_to_role (role : string) (message : Message) : Py unit :=
  let* self := get_self in
  let target_users := broadcast_to_role_targets role self in
  gather (map (λ user_id, send_to_user user_id message) target_users).

Definition broadcast_all (message : Message) : Py unit :=
  let* self := get_self in
  gather (map (λ user_id, send_to_user user_id message)
              (broadcast_all_targets self)).

Definition add_session_watcher (session_id : string) (admin_user_id : Z)
  : Py unit :=
  let* self := get_self in
  when (negb (contains (session_watchers self) session_id))
    (update_self
       (λ s, set_session_watchers (<[session_id := []]> (session_watchers s)) s)) ;;;
  let* self := get_self in
  let* watchers := getitem (session_watchers self) session_id in
  when (negb (bool_decide (admin_user_id ∈ watchers)))
    (update_self
       (λ s, set_session_watchers
               (<[session_id := watchers ++ [admin_user_id]]> (session_watchers s))
               s)).

Definition remove_session_watcher (session_id : string) (admin_user_id : Z)
  : Py unit :=
  let* self := get_self in
  if contains (session_watchers self) session_id then
    let* watchers := getitem (session_watchers self) session_id in
    when (bool_decide (admin_user_id ∈ watchers))
      (let* watchers' := list_remove admin_user_id watchers in
       update_self
         (λ s, set_session_watchers
                 (<[session_id := watchers']> (session_watchers s)) s) ;;;
       let* self := get_self in
       let* watchers := getitem (session_watchers self) session_id in
       when (negb (list_truthy watchers))
         (let* ws := delitem (session_watchers self) session_id in
          update_self (set_session_watchers ws)))
  else ret tt.

Definition get_online_users (self : ConnectionManager) : list Z :=
  (map_to_list (connections self)).*1.

Definition get_session_watchers (self : ConnectionManager) (session_id : string)
  : list Z :=
  default [] (session_watchers self !! session_id).

Definition is_user_online (self : ConnectionManager) (user_id : Z) : bool :=
  contains (connections self) user_id.

Definition get_connection_count (self : ConnectionManager) : nat :=
  map_fold (λ _ sockets total, (length sockets + total)%nat) 0%nat
           (connections self).

Definition get_online_users_count (self : ConnectionManager) : nat :=
  size (connections self).

Definition disconnect_all : Py unit :=
  let* self := get_self in
  for_each (map_to_list (connections self))
    (λ kv,
       for_each kv.2
         (λ ws, try_except (close ws 1001 "Server shutdown") (λ _, ret tt))) ;;;
  update_self (set_connections ∅) ;;;
  update_self (set_user_sessions ∅) ;;;
  update_self (set_session_watchers ∅) ;;;
  update_self (set_user_roles ∅).

End Hub.

(** ** The presence counter ([PresenceService.update_presence])

    A row of the [user_presence] table of migration 008.  The two INTEGER
    columns are [Z]; the statements below never store NULL in them. *)
Record PresenceRow : Type := mkPresenceRow {
  is_online : Z;
  last_seen : string;
  connected_at : string;
  connection_count : Z
}.

(** [conn = self.get_db_connection()]: no connection, or one whose
    [execute] returns or raises. *)
Inductive DbConnection : Type :=
  | NoDb
  | Db (execute_raises : option PyExc).

(** [INSERT INTO user_presence ... VALUES (?, 1, ?, ?, 1)
    ON CONFLICT(user_id) DO UPDATE SET is_online = 1, last_seen = ?,
    connection_count = connection_count + 1] *)
Definition upsert_connected (now : string) (user_id : Z)
    (t : gmap Z PresenceRow) : gmap Z PresenceRow :=
  match t !! user_id with
  | None => <[user_id := mkPresenceRow 1 now now 1]> t
  | Some r =>
      <[user_id := mkPresenceRow 1 now (connected_at r) (connection_count r + 1)]> t
  end.

(** [UPDATE user_presence SET connection_count = MAX(0, connection_count - 1),
    is_online = CASE WHEN connection_count - 1 <= 0 THEN 0 ELSE 1 END,
    last_seen = ? WHERE user_id = ?]; the right-hand sides read the row as
    it is before the statement. *)
Definition update_disconnected (now : string) (user_id : Z)
    (t : gmap Z PresenceRow) : gmap Z PresenceRow :=
  match t !! user_id with
  | None => t
  | Some r =>
      <[user_id :=
          mkPresenceRow
            (if decide (connection_count r - 1 ≤ 0) then 0 else 1)
            now
            (connected_at r)
            (Z.max 0 (connection_count r - 1))]> t
  end.

(** [now] is [datetime.now().isoformat()].  Without a connection the method
    returns at once; when [execute] raises, the transaction is rolled
    back. *)
Definition update_presence (conn : DbConnection) (now : string) (user_id : Z)
    (online : bool) (t : gmap Z PresenceRow) : gmap Z PresenceRow :=
  match conn with
  | NoDb => t
  | Db (Some _) => t
  | Db None =>
      if online then upsert_connected now user_id t
      else update_disconnected now user_id t
  end.

(** ** What a call leaves behind, as functions on the state

    These functions are not the source: they describe the state after
    [disconnect], and the lemmas below prove that the embedded method
    computes them. *)

Definition drop_socket (user_id : Z) (ws : WebSocket) (s : ConnectionManager)
  : ConnectionManager :=
  match connections s !! user_id with
  | Some sockets =>
      if bool_decide (ws ∈ sockets) then
        match remove_first ws sockets with
        | [] => set_user_roles (delete user_id (user_roles s))
                  (set_connections (delete user_id (connections s)) s)
        | l => set_connections (<[user_id := l]> (connections s)) s
        end
      else s
  | None => s
  end.

Definition drop_sessions (user_id : Z) (ws : WebSocket) (s : ConnectionManager)
  : ConnectionManager :=
  match user_sessions s !! user_id with
  | Some mine =>
      let mine' := filter (λ kv, kv.2 ≠ ws) mine in
      if dict_truthy mine'
      then set_user_sessions (<[user_id := mine']> (user_sessions s)) s
      else set_user_sessions (delete user_id (user_sessions s)) s
  | None => s
  end.

Definition strip_watcher (user_id : Z) (watchers : list Z) : option (list Z) :=
  if bool_decide (user_id ∈ watchers) then
    match remove_first user_id watchers with
    | [] => None
    | l => Some l
    end
  else Some watchers.

Definition drop_watcher (user_id : Z) (s : ConnectionManager) : ConnectionManager :=
  set_session_watchers (omap (strip_watcher user_id) (session_watchers s)) s.

Definition after_disconnect (user_id : Z) (ws : WebSocket) (s : ConnectionManager)
  : ConnectionManager :=
  drop_watcher user_id (drop_sessions user_id ws (drop_socket user_id ws s)).

(** One step of the watcher loop of [disconnect], on the dictionary. *)
Definition strip_entry (u : Z) (m : gmap string (list Z)) (kv : string * list Z)
  : gmap string (list Z) :=
  match strip_watcher u kv.2 with
  | Some l' => <[kv.1 := l']> m
  | None => delete kv.1 m
  end.

(** What [_get_user_role] returns. *)
Definition fallback_role (env : Collaborators) (u : Z) : string :=
  match get_effective_role env u with
  | inl role => role
  | inr _ => "mentorado"
  end.

Definition after_connect (env : Collaborators) (u : Z) (ws : WebSocket)
    (session_id : option string) (s : ConnectionManager) : ConnectionManager :=
  let s1 :=
    match connections s !! u with
    | Some l => set_connections (<[u := l ++ [ws]]> (connections s)) s
    | None =>
        set_connections (<[u := [ws]]> (connections s))
          (set_user_roles (<[u := fallback_role env u]> (user_roles s)) s)
    end in
  match session_id with
  | Some sid =>
      if bool_decide (sid = EmptyString) then s1
      else set_user_sessions
             (<[u := <[sid := ws]> (default ∅ (user_sessions s !! u))]>
                (user_sessions s)) s1
  | None => s1
  end.

Definition after_add_session_watcher (k : string) (a : Z) (s : ConnectionManager)
  : ConnectionManager :=
  match session_watchers s !! k with
  | Some l =>
      if bool_decide (a ∈ l) then s
      else set_session_watchers (<[k := l ++ [a]]> (session_watchers s)) s
  | None => set_session_watchers (<[k := [a]]> (session_watchers s)) s
  end.

Definition after_remove_session_watcher (k : string) (a : Z) (s : ConnectionManager)
  : ConnectionManager :=
  match session_watchers s !! k with
  | Some l =>
      match strip_watcher a l with
      | Some l' => set_session_watchers (<[k := l']> (session_watchers s)) s
      | None => set_session_watchers (delete k (session_watchers s)) s
      end
  | None => s
  end.

(** The fan-out loop of [send_to_user]: the dead sockets and the trace. *)
Fixpoint send_all (env : Collaborators) (m : Message) (sockets : list WebSocket)
    (dead : list WebSocket) (tr : list WireEvent)
  : list WebSocket * list WireEvent :=
  match sockets with
  | [] => (dead, tr)
  | ws :: rest =>
      match transport_send env tr ws m with
      | None => send_all env m rest dead (tr ++ [SendJson ws m true])
      | Some _ => send_all env m rest (dead ++ [ws]) (tr ++ [SendJson ws m false])
      end
  end.

Definition after_send_to_user (env : Collaborators) (u : Z) (m : Message)
    (w : World) : World :=
  match connections (hub w) !! u with
  | Some sockets =>
      let r := send_all env m sockets [] (wire w) in
      mkWorld (foldl (λ s ws, after_disconnect u ws s) (hub w) r.1) r.2
  | None => w
  end.

(** The sum that [get_connection_count] computes. *)
Definition total_sockets (conns : gmap Z (list WebSocket)) : nat :=
  map_fold (λ _ sockets total, (length sockets + total)%nat) 0%nat conns.

(** ** Invariant and reachable states *)

(** No user maps to an empty connection list, the role cache has the keys
    of [connections], and no watcher list is empty or lists an admin
    twice. *)
Record consistent (s : ConnectionManager) : Prop := mkConsistent {
  conn_nonempty : ∀ u l, connections s !! u = Some l → l ≠ [];
  roles_cached : ∀ u, is_Some (user_roles s !! u) ↔ is_Some (connections s !! u);
  watch_nonempty : ∀ k l, session_watchers s !! k = Some l → l ≠ [];
  watch_nodup : ∀ k l, session_watchers s !! k = Some l → NoDup l
}.

(** The public methods that change the state or write to a transport. *)
Inductive Call : Type :=
  | Connect (user_id : Z) (websocket : WebSocket) (session_id : option string)
  | Disconnect (user_id : Z) (websocket : WebSocket)
  | SendToUser (user_id : Z) (message : Message)
  | SendToSession (session_id : string) (message : Message) (exclude_user : option Z)
  | BroadcastToRole (role : string) (message : Message)
  | BroadcastAll (message : Message)
  | AddSessionWatcher (session_id : string) (admin_user_id : Z)
  | RemoveSessionWatcher (session_id : string) (admin_user_id : Z)
  | DisconnectAll.

Definition run_call (env : Collaborators) (c : Call) : Py unit :=
  match c with
  | Connect u ws sid => connect env u ws sid
  | Disconnect u ws => disconnect u ws
  | SendToUser u m => send_to_user env u m
  | SendToSession sid m ex => send_to_session env sid m ex
  | BroadcastToRole r m => broadcast_to_role env r m
  | BroadcastAll m => broadcast_all env m
  | AddSessionWatcher sid a => add_session_watcher sid a
  | RemoveSessionWatcher sid a => remove_session_watcher sid a
  | DisconnectAll => disconnect_all env
  end.

(** The states reached from a fresh manager by any sequence of calls; the
    collaborators may answer differently at every call, and a call counts
    whatever its outcome. *)
Inductive reachable : World → Prop :=
  | reachable_new : reachable (mkWorld new_manager [])
  | reachable_call env c w o w' :
      reachable w → run_call env c w = (o, w') → reachable w'.

(** [c] keeps [P] true of the manager, however it ends. *)
Definition keeps {A} (P : ConnectionManager → Prop) (c : Py A) : Prop :=
  ∀ w o w', c w = (o, w') → P (hub w) → P (hub w').

(** ** Two statements of the specification that the code refutes *)

(** Unregistering one of several connections of an admin leaves the
    watcher index as it is. *)
Definition non_last_disconnect_keeps_watchers : Prop :=
  ∀ w u ws l,
    reachable w →
    connections (hub w) !! u = Some l → (2 ≤ length l)%nat → ws ∈ l →
    ∃ w', disconnect u ws w = (Return tt, w') ∧
          session_watchers (hub w') = session_watchers (hub w).

(** A second [disconnect] of the same pair changes nothing, in every
    reachable state. *)
Definition unregister_idempotent : Prop :=
  ∀ w u ws,
    reachable w →
    ∃ w1, disconnect u ws w = (Return tt, w1) ∧
          disconnect u ws w1 = (Return tt, w1).

(** ** Concrete collaborators and states *)

(** Every lookup answers and every socket accepts what is sent. *)
Definition quiet_env : Collaborators :=
  mkCollaborators (λ _, inl "admin") (λ _, NoRow) (λ _ _ _, None) (λ _ _, None).

(** Socket 2 is dead. *)
Definition flaky_env : Collaborators :=
  mkCollaborators (λ _, inl "admin") (λ _, NoRow)
    (λ _ ws _, if decide (ws = 2%positive) then Some (OtherError "WebSocketDisconnect")
               else None)
    (λ _ _, None).

(** The role lookup raises. *)
Definition role_down_env : Collaborators :=
  mkCollaborators (λ _, inr (OtherError "OperationalError")) (λ _, NoRow)
    (λ _ _ _, None) (λ _ _, None).


(** Every session belongs to user 7, and socket 2 is dead. *)
Definition flaky_routed_env : Collaborators :=
  mkCollaborators (λ _, inl "admin") (λ _, Row (Some 7))
    (λ _ ws _, if decide (ws = 2%positive) then Some (OtherError "WebSocketDisconnect")
               else None)
    (λ _ _, None).

(** Admin 1 has two tabs open and watches session [s]. *)
Definition two_tabs_watching : World :=
  mkWorld (mkManager {[1 := [1; 2]%positive]} ∅ {["s" := [1]]} {[1 := "admin"]}) [].

(** User 1 registered socket 5 twice. *)
Definition same_tab_twice : World :=
  mkWorld (mkManager {[1 := [5; 5]%positive]} ∅ ∅ {[1 := "admin"]}) [].

Definition three_tabs : World :=
  mkWorld (mkManager {[1 := [1; 2; 3]%positive]} ∅ ∅ {[1 := "admin"]}) [].

Definition routed_world : World :=
  mkWorld (mkManager {[7 := [1%positive]; 5 := [2%positive]; 6 := [3%positive]]} ∅
             {["s" := [5; 6]]}
             {[7 := "mentorado"; 5 := "admin"; 6 := "admin"]}) [].

Definition one_tab_presence : gmap Z PresenceRow :=
  {[7 := mkPresenceRow 1 "2024-01-01T10:00:00" "2024-01-01T10:00:00" 1]}.

(** ** Traces, frames and the presence table *)

(** The close events of [disconnect_all] on [sockets], given how each
    close ended. *)
Definition close_events (sockets : list WebSocket) (oks : list bool)
  : list WireEvent :=
  zip_with (λ ws ok, CloseSocket ws 1001 "Server shutdown" ok) sockets oks.

(** The send events of a fan-out of [m] over [sockets], given how each send
    ended. *)
Definition send_events (m : Message) (sockets : list WebSocket) (oks : list bool)
  : list WireEvent :=
  zip_with (λ ws ok, SendJson ws m ok) sockets oks.

(** Every registered socket, user after user in the order of the
    dictionary. *)
Definition all_sockets (self : ConnectionManager) : list WebSocket :=
  concat (map_to_list (connections self)).*2.

(** What a call for another user leaves of user [v]: its connections, its
    cached role, its session index and the sessions it watches. *)
Definition untouched (v : Z) (s s' : ConnectionManager) : Prop :=
  connections s' !! v = connections s !! v ∧
  user_roles s' !! v = user_roles s !! v ∧
  user_sessions s' !! v = user_sessions s !! v ∧
  ∀ k, v ∈ get_session_watchers s' k ↔ v ∈ get_session_watchers s k.

(** The sockets of [sockets] whose send ended as [wanted]. *)
Definition sockets_with (wanted : bool) (sockets : list WebSocket)
    (oks : list bool) : list WebSocket :=
  (filter (λ p, p.2 = wanted) (zip sockets oks)).*1.

(** The session index is sound: no user maps to an empty dictionary, and
    a socket indexed under a user's session is registered for that user. *)
Record sessions_sound (s : ConnectionManager) : Prop := mkSessionsSound {
  sessions_nonempty : ∀ u mine, user_sessions s !! u = Some mine → mine ≠ ∅;
  sessions_registered :
    ∀ u mine k ws,
      user_sessions s !! u = Some mine → mine !! k = Some ws →
      ∃ l, connections s !! u = Some l ∧ ws ∈ l
}.

(** The sockets of the users [us], user after user. *)
Definition sockets_of (self : ConnectionManager) (us : list Z) : list WebSocket :=
  concat (map (λ u, default [] (connections self !! u)) us).

(** The two other methods of [PresenceService] that touch one table only. *)
Module Presence.

(** [is_user_online]: whether the query [SELECT is_online FROM user_presence
    WHERE user_id = ? AND is_online = 1 LIMIT 1] finds a row; [False]
    without a connection or when the query raises. *)
Definition is_user_online (conn : DbConnection) (user_id : Z)
    (t : gmap Z PresenceRow) : bool :=
  match conn with
  | NoDb => false
  | Db (Some _) => false
  | Db None =>
      match t !! user_id with
      | Some r => bool_decide (is_online r = 1)
      | None => false
      end
  end.

(** [WHERE last_seen < ? AND is_online = 1]: TEXT values are compared byte
    by byte, as [String.ltb] does. *)
Definition stale (cutoff : string) (r : PresenceRow) : bool :=
  String.ltb (last_seen r) cutoff && bool_decide (is_online r = 1).

(** [cleanup_stale_presence]: [UPDATE user_presence SET is_online = 0,
    connection_count = 0 WHERE last_seen < ? AND is_online = 1], where
    [cutoff] is [(datetime.now() - timedelta(minutes=timeout_minutes))
    .isoformat()].  The row count is only logged. *)
Definition cleanup_stale_presence (conn : DbConnection) (cutoff : string)
    (t : gmap Z PresenceRow) : gmap Z PresenceRow :=
  match conn with
  | NoDb => t
  | Db (Some _) => t
  | Db None =>
      (λ r, if stale cutoff r
            then mkPresenceRow 0 (last_seen r) (connected_at r) 0
            else r) <$> t
  end.

End Presence.

(** A presence row is sound when its count is not negative and its flag is
    1 for a positive count and 0 for the count 0. *)
Definition row_sound (r : PresenceRow) : Prop :=
  (is_online r = 1 ∧ 0 < connection_count r) ∨
  (is_online r = 0 ∧ connection_count r = 0).

(** Every row of the table is sound. *)
Definition table_sound (t : gmap Z PresenceRow) : Prop :=
  ∀ u r, t !! u = Some r → row_sound r.

(** [update_presence] called once per timestamp of [nows], oldest first. *)
Definition presence_updates (online : bool) (user_id : Z) (nows : list string)
    (t : gmap Z PresenceRow) : gmap Z PresenceRow :=
  foldl (λ t now, update_presence (Db None) now user_id online t) t nows.

(** User 1 opened one tab for the session [s1]. *)
Definition tab_with_session : World :=
  mkWorld (mkManager {[1 := [1%positive]]} {[1 := {["s1" := 1%positive]}]} ∅
             {[1 := "admin"]}) [].

(** * Proofs *)

(** ** Running the monad *)

Lemma world_eta w : mkWorld (hub w) (wire w) = w.
Proof. by destruct w. Qed.

Lemma manager_eta s :
  mkManager (connections s) (user_sessions s) (session_watchers s) (user_roles s) = s.
Proof. by destruct s. Qed.

Lemma bind_run {A B} (c : Py A) (k : A → Py B) w a w1 :
  c w = (Return a, w1) → bind c k w = k a w1.
Proof. intros Hc. unfold bind. by rewrite Hc. Qed.

Lemma contains_true `{Countable K} {V} (d : gmap K V) k v :
  d !! k = Some v → contains d k = true.
Proof. intros Hk. unfold contains. rewrite Hk. apply bool_decide_eq_true. eauto. Qed.

Lemma contains_false `{Countable K} {V} (d : gmap K V) k :
  d !! k = None → contains d k = false.
Proof.
  intros Hk. unfold contains. rewrite Hk. apply bool_decide_eq_false.
  intros [? ?]. discriminate.
Qed.

Ltac py_fields :=
  cbn [hub wire connections user_sessions session_watchers user_roles
       set_connections set_user_sessions set_session_watchers set_user_roles].

Ltac py_unfold :=
  cbv [bind ret raise get_self update_self when try_except getitem delitem
       list_remove out_of_fuel];
  py_fields.

(** ** Lists: [filter] and [remove_first] *)

Lemma filter_keeps_all {A} (P : A → Prop) `{∀ x, Decision (P x)} (l : list A) :
  (∀ x, x ∈ l → P x) → filter P l = l.
Proof.
  induction l as [|y l IH]; intros Hall; [done|].
  rewrite filter_cons_True by (apply Hall; left). f_equal. apply IH.
  intros x Hx. apply Hall. by right.
Qed.

Lemma remove_first_sublist `{EqDecision A} (x : A) l : remove_first x l `sublist_of` l.
Proof.
  induction l as [|y l IH]; cbn [remove_first]; [done|].
  case_decide; [by apply sublist_cons | by apply sublist_skip].
Qed.

Lemma remove_first_length `{EqDecision A} (x : A) l :
  x ∈ l → S (length (remove_first x l)) = length l.
Proof.
  induction l as [|y l IH]; cbn [remove_first]; [by intros ?%elem_of_nil|].
  intros Hin. case_decide; [done|]. cbn. f_equal. apply IH.
  apply elem_of_cons in Hin as [?|?]; [congruence | done].
Qed.

Lemma remove_first_not_elem `{EqDecision A} (x : A) l : x ∉ l → remove_first x l = l.
Proof.
  induction l as [|y l IH]; cbn [remove_first]; [done|]. intros Hn.
  apply not_elem_of_cons in Hn as [? ?]. case_decide; [congruence|]. f_equal. auto.
Qed.

Lemma remove_first_NoDup `{EqDecision A} (x : A) l :
  NoDup l → remove_first x l = filter (λ y, y ≠ x) l.
Proof.
  induction l as [|y l IH]; cbn [remove_first]; [done|]. intros [Hy Hnd]%NoDup_cons.
  case_decide as Hd.
  - subst y. rewrite filter_cons_False by tauto.
    symmetry. apply filter_keeps_all. intros z Hz ->. done.
  - rewrite filter_cons_True by done. f_equal. auto.
Qed.

Lemma remove_first_count `{EqDecision A} (x y : A) l :
  x ∈ l →
  length (filter (λ z, z = y) (remove_first x l))
  = if decide (x = y) then pred (length (filter (λ z, z = y) l))
    else length (filter (λ z, z = y) l).
Proof.
  induction l as [|z l IH]; cbn [remove_first]; [by intros ?%elem_of_nil|].
  intros Hin. destruct (decide (z = x)) as [->|Hzx].
  - destruct (decide (x = y)) as [->|Hxy].
    + by rewrite filter_cons_True.
    + by rewrite filter_cons_False.
  - apply elem_of_cons in Hin as [?|Hin]; [congruence|].
    specialize (IH Hin).
    destruct (decide (z = y)) as [->|Hzy].
    + rewrite !filter_cons_True by done. cbn. rewrite IH.
      destruct (decide (x = y)); [congruence | done].
    + rewrite !filter_cons_False by done. done.
Qed.

Lemma remove_first_Permutation `{EqDecision A} (x : A) l :
  x ∈ l → l ≡ₚ x :: remove_first x l.
Proof.
  induction l as [|y l IH]; cbn [remove_first]; [by intros ?%elem_of_nil|].
  intros Hin. case_decide as Hd; [by subst|].
  apply elem_of_cons in Hin as [?|Hin]; [congruence|].
  rewrite (IH Hin) at 1. apply Permutation_swap.
Qed.

Lemma at_most_once_gone `{EqDecision A} (x : A) l :
  x ∈ l → (length (filter (λ y, y = x) l) ≤ 1)%nat → x ∉ remove_first x l.
Proof.
  intros Hin Hone Hagain.
  pose proof (remove_first_count x x l Hin) as Hc. rewrite decide_True in Hc by done.
  assert (x ∈ filter (λ y, y = x) (remove_first x l)) as Hf.
  { by apply list_elem_of_filter. }
  destruct (filter (λ y, y = x) (remove_first x l)); [by apply elem_of_nil in Hf|].
  cbn in Hc. lia.
Qed.

(** ** [disconnect] computes [after_disconnect] *)

Lemma disconnect_connection_run u ws w :
  disconnect_connection u ws w
  = (Return tt, mkWorld (drop_socket u ws (hub w)) (wire w)).
Proof.
  unfold disconnect_connection, drop_socket.
  destruct (connections (hub w) !! u) as [l|] eqn:El.
  - py_unfold. rewrite (contains_true _ _ _ El), El.
    destruct (bool_decide (ws ∈ l)) eqn:Ein; [|by rewrite world_eta].
    py_fields. rewrite lookup_insert_eq.
    destruct (remove_first ws l) as [|x l'] eqn:Er.
    + rewrite bool_decide_eq_true_2 by done.
      py_fields. rewrite lookup_insert_eq. py_fields.
      rewrite delete_insert_eq.
      destruct (user_roles (hub w) !! u) as [r|] eqn:Eu.
      * rewrite (contains_true _ _ _ Eu). py_fields. done.
      * rewrite (contains_false _ _ Eu). by rewrite (delete_id _ _ Eu).
    + by rewrite bool_decide_eq_false_2.
  - py_unfold. rewrite (contains_false _ _ El). by rewrite world_eta.
Qed.

Lemma foldr_delete_lookup {V} (ks : list string) (m : gmap string V) k :
  foldr delete m ks !! k = if bool_decide (k ∈ ks) then None else m !! k.
Proof.
  induction ks as [|k' ks IH]; cbn.
  - by rewrite bool_decide_eq_false_2 by apply not_elem_of_nil.
  - destruct (decide (k = k')) as [->|Hne].
    + rewrite lookup_delete_eq. rewrite bool_decide_eq_true_2; [done | left].
    + rewrite lookup_delete_ne by done. rewrite IH.
      destruct (bool_decide (k ∈ ks)) eqn:E.
      * apply bool_decide_eq_true in E. rewrite bool_decide_eq_true_2; [done | by right].
      * apply bool_decide_eq_false in E. rewrite bool_decide_eq_false_2; [done |].
        intros Hin. apply elem_of_cons in Hin as [?|?]; done.
Qed.

Lemma sessions_loop u (ks : list string) :
  ∀ (mine : gmap string WebSocket) (w : World),
    NoDup ks → (∀ k, k ∈ ks → is_Some (mine !! k)) →
    user_sessions (hub w) !! u = Some mine →
    for_each ks
      (λ sid,
         let* self := get_self in
         let* mine := getitem (user_sessions self) u in
         let* mine' := delitem mine sid in
         update_self
           (λ s, set_user_sessions (<[u := mine']> (user_sessions s)) s)) w
    = (Return tt,
       mkWorld (set_user_sessions
                  (<[u := foldr delete mine (reverse ks)]> (user_sessions (hub w)))
                  (hub w)) (wire w)).
Proof.
  induction ks as [|k ks IH]; intros mine w Hnd Hin Hu.
  - cbn. unfold ret. rewrite (insert_id _ _ _ Hu).
    unfold set_user_sessions. by rewrite manager_eta, world_eta.
  - cbn [for_each]. apply NoDup_cons in Hnd as [Hk Hnd].
    destruct (Hin k) as [v Hv]; [left|].
    erewrite bind_run; last first.
    { py_unfold. rewrite Hu, Hv. reflexivity. }
    rewrite (IH (delete k mine)); py_fields.
    + rewrite insert_insert_eq. rewrite reverse_cons, foldr_app. done.
    + done.
    + intros k' Hk'. rewrite lookup_delete_ne by (intros ->; done).
      apply Hin. by right.
    + by rewrite lookup_insert_eq.
Qed.

Lemma delete_matching_is_filter (mine : gmap string WebSocket) ws :
  foldr delete mine
    (reverse (filter (λ kv, kv.2 = ws) (map_to_list mine)).*1)
  = filter (λ kv, kv.2 ≠ ws) mine.
Proof.
  apply map_eq. intros k. rewrite foldr_delete_lookup.
  rewrite map_lookup_filter.
  destruct (mine !! k) as [v|] eqn:Ek; cbn.
  - destruct (decide (v = ws)) as [->|Hne].
    + rewrite bool_decide_eq_true_2.
      * rewrite option_guard_False; [done | cbn; tauto].
      * rewrite elem_of_reverse. apply list_elem_of_fmap. exists (k, ws). split; [done|].
        apply list_elem_of_filter. split; [done|]. by apply elem_of_map_to_list.
    + rewrite bool_decide_eq_false_2.
      * by rewrite option_guard_True.
      * rewrite elem_of_reverse. intros Hin. apply list_elem_of_fmap in Hin as [[k' v'] [-> Hin]].
        apply list_elem_of_filter in Hin as [Hv Hin]. cbn in *.
        apply elem_of_map_to_list in Hin. congruence.
  - by destruct (bool_decide _).
Qed.

Lemma disconnect_sessions_run u ws w :
  disconnect_sessions u ws w
  = (Return tt, mkWorld (drop_sessions u ws (hub w)) (wire w)).
Proof.
  unfold disconnect_sessions, drop_sessions.
  destruct (user_sessions (hub w) !! u) as [mine|] eqn:Eu.
  - erewrite bind_run; [|reflexivity]. rewrite (contains_true _ _ _ Eu).
    unfold when. erewrite bind_run; [|by unfold getitem; rewrite Eu].
    erewrite bind_run; last first.
    { apply sessions_loop with (mine := mine); [| |done].
      - apply NoDup_fmap_fst.
        + intros k v1 v2 H1 H2. apply list_elem_of_filter in H1 as [_ H1], H2 as [_ H2].
          apply elem_of_map_to_list in H1, H2. congruence.
        + apply NoDup_filter, NoDup_map_to_list.
      - intros k Hk. apply list_elem_of_fmap in Hk as [[k' v] [-> Hk]].
        apply list_elem_of_filter in Hk as [_ Hk]. apply elem_of_map_to_list in Hk. eauto. }
    rewrite delete_matching_is_filter.
    py_unfold. rewrite lookup_insert_eq. cbv zeta.
    destruct (dict_truthy (filter _ mine)) eqn:Ef; [done|]. cbn [negb].
    py_fields. rewrite lookup_insert_eq. py_fields. by rewrite delete_insert_eq.
  - py_unfold. rewrite (contains_false _ _ Eu). by rewrite world_eta.
Qed.

Lemma disconnect_watcher_run u k l w :
  session_watchers (hub w) !! k = Some l →
  disconnect_watcher u (k, l) w
  = (Return tt,
     mkWorld (set_session_watchers
                (match strip_watcher u l with
                 | Some l' => <[k := l']> (session_watchers (hub w))
                 | None => delete k (session_watchers (hub w))
                 end) (hub w)) (wire w)).
Proof.
  intros Hk. unfold disconnect_watcher, strip_watcher. cbn [fst snd].
  py_unfold. destruct (bool_decide (u ∈ l)) eqn:Ein.
  - destruct (remove_first u l) as [|x l'] eqn:Er; cbn [list_truthy negb]; py_fields.
    + rewrite lookup_insert_eq. by rewrite delete_insert_eq.
    + done.
  - rewrite (insert_id _ _ _ Hk). unfold set_session_watchers.
    by rewrite manager_eta, world_eta.
Qed.

Lemma watchers_loop u (items : list (string * list Z)) :
  ∀ w, NoDup items.*1 →
    (∀ k l, (k, l) ∈ items → session_watchers (hub w) !! k = Some l) →
    for_each items (disconnect_watcher u) w
    = (Return tt,
       mkWorld (set_session_watchers
                  (foldl (strip_entry u) (session_watchers (hub w)) items)
                  (hub w)) (wire w)).
Proof.
  induction items as [|[k l] items IH]; intros w Hnd Hin.
  - cbn. unfold ret, set_session_watchers. by rewrite manager_eta, world_eta.
  - cbn [for_each]. cbn in Hnd. apply NoDup_cons in Hnd as [Hk Hnd].
    erewrite bind_run; [|apply disconnect_watcher_run, Hin; left].
    rewrite IH; py_fields; [done | done |].
    intros k' l' Hin'. 
    assert (k' ≠ k) as Hne.
    { intros ->. apply Hk. apply list_elem_of_fmap. by exists (k, l'). }
    destruct (strip_watcher u l).
    + rewrite lookup_insert_ne by done. apply Hin. by right.
    + rewrite lookup_delete_ne by done. apply Hin. by right.
Qed.

Lemma strip_entries_lookup u (items : list (string * list Z)) :
  ∀ m k, NoDup items.*1 →
    foldl (strip_entry u) m items !! k
    = match list_find (λ kv, kv.1 = k) items with
      | Some (_, kv) => strip_watcher u kv.2
      | None => m !! k
      end.
Proof.
  induction items as [|[k' l] items IH]; intros m k Hnd; [done|].
  cbn in Hnd. apply NoDup_cons in Hnd as [Hk Hnd].
  cbn [foldl]. rewrite IH by done. cbn [list_find fst snd].
  destruct (decide (k' = k)) as [->|Hne]; cbn.
  - destruct (list_find _ items) as [[i [k2 l2]]|] eqn:Ef; cbn.
    + apply list_find_Some in Ef as (Hl & Hk2 & _). cbn in Hk2. subst k2.
      exfalso. apply Hk. apply list_elem_of_fmap. exists (k, l2). split; [done|].
      by eapply list_elem_of_lookup_2.
    + unfold strip_entry. cbn. destruct (strip_watcher u l).
      * by rewrite lookup_insert_eq.
      * by rewrite lookup_delete_eq.
  - destruct (list_find _ items) as [[i [k2 l2]]|] eqn:Ef; cbn; [done|].
    unfold strip_entry. cbn. destruct (strip_watcher u l).
    + by rewrite lookup_insert_ne.
    + by rewrite lookup_delete_ne.
Qed.

Lemma strip_all_is_omap u (m : gmap string (list Z)) :
  foldl (strip_entry u) m (map_to_list m) = omap (strip_watcher u) m.
Proof.
  apply map_eq. intros k.
  rewrite strip_entries_lookup by apply NoDup_fst_map_to_list.
  rewrite lookup_omap.
  destruct (list_find _ (map_to_list m)) as [[i [k2 l2]]|] eqn:Ef.
  - apply list_find_Some in Ef as (Hl & Hk2 & _). cbn in Hk2. subst k2.
    apply list_elem_of_lookup_2, elem_of_map_to_list in Hl. by rewrite Hl.
  - destruct (m !! k) as [l|] eqn:Ek; [|done].
    exfalso. eapply list_find_None in Ef. 
    rewrite Forall_forall in Ef. apply (Ef (k, l)); [|done].
    by apply elem_of_map_to_list.
Qed.

Lemma disconnect_watchers_run u w :
  disconnect_watchers u w = (Return tt, mkWorld (drop_watcher u (hub w)) (wire w)).
Proof.
  unfold disconnect_watchers. erewrite bind_run; [|reflexivity].
  rewrite watchers_loop.
  - by rewrite strip_all_is_omap.
  - apply NoDup_fst_map_to_list.
  - intros k l. apply elem_of_map_to_list.
Qed.

Lemma disconnect_run u ws w :
  disconnect u ws w = (Return tt, mkWorld (after_disconnect u ws (hub w)) (wire w)).
Proof.
  unfold disconnect.
  erewrite bind_run; [|apply disconnect_connection_run].
  erewrite bind_run; [|apply disconnect_sessions_run].
  by rewrite disconnect_watchers_run.
Qed.

(** ** The other methods *)

Lemma _get_user_role_run env u w :
  _get_user_role env u w = (Return (fallback_role env u), w).
Proof.
  unfold _get_user_role, fallback_role, try_except.
  by destruct (get_effective_role env u).
Qed.

Lemma _get_session_user_id_run env sid w :
  _get_session_user_id env sid w
  = (Return match select_session_user env sid with
            | Row user_id => user_id
            | _ => None
            end, w).
Proof.
  unfold _get_session_user_id, try_except.
  by destruct (select_session_user env sid).
Qed.

Lemma connect_run env u ws sid w :
  connect env u ws sid w
  = (Return tt, mkWorld (after_connect env u ws sid (hub w)) (wire w)).
Proof.
  unfold connect, after_connect.
  erewrite bind_run; [|reflexivity].
  destruct (connections (hub w) !! u) as [l|] eqn:El.
  - rewrite (contains_true _ _ _ El). cbn [negb when].
    erewrite bind_run; [|reflexivity].
    erewrite bind_run; [|reflexivity].
    erewrite bind_run; [|by unfold getitem; rewrite El].
    erewrite bind_run; [|reflexivity].
    cbv zeta. destruct sid as [sid|]; [|done].
    destruct (bool_decide (sid = EmptyString)); cbn [negb when]; [done|].
    py_unfold.
    destruct (user_sessions (hub w) !! u) as [mine|] eqn:Eu.
    + rewrite (contains_true _ _ _ Eu). cbn [negb]. py_fields. by rewrite Eu.
    + rewrite (contains_false _ _ Eu). cbn [negb]. py_fields.
      rewrite lookup_insert_eq. py_fields. by rewrite insert_insert_eq.
  - rewrite (contains_false _ _ El). cbn [negb when].
    erewrite bind_run; last first.
    { erewrite bind_run; [|reflexivity].
      erewrite bind_run; [|apply _get_user_role_run]. reflexivity. }
    erewrite bind_run; [|reflexivity]. py_fields.
    erewrite bind_run; [|by unfold getitem; rewrite lookup_insert_eq].
    erewrite bind_run; [|reflexivity]. py_fields. rewrite insert_insert_eq.
    cbv zeta. destruct sid as [sid|]; [|done].
    destruct (bool_decide (sid = EmptyString)); cbn [negb when]; [done|].
    py_unfold.
    destruct (user_sessions (hub w) !! u) as [mine|] eqn:Eu.
    + rewrite (contains_true _ _ _ Eu). cbn [negb]. py_fields. by rewrite Eu.
    + rewrite (contains_false _ _ Eu). cbn [negb]. py_fields.
      rewrite lookup_insert_eq. py_fields. by rewrite insert_insert_eq.
Qed.

Lemma add_session_watcher_run k a w :
  add_session_watcher k a w
  = (Return tt, mkWorld (after_add_session_watcher k a (hub w)) (wire w)).
Proof.
  unfold add_session_watcher, after_add_session_watcher.
  py_unfold. destruct (session_watchers (hub w) !! k) as [l|] eqn:Ek.
  - rewrite (contains_true _ _ _ Ek). cbn [negb]. rewrite Ek.
    destruct (bool_decide (a ∈ l)); cbn [negb]; [by rewrite world_eta | done].
  - rewrite (contains_false _ _ Ek). cbn [negb]. py_fields.
    rewrite lookup_insert_eq. 
    rewrite bool_decide_eq_false_2 by apply not_elem_of_nil. cbn [negb]. py_fields.
    by rewrite insert_insert_eq.
Qed.

Lemma remove_session_watcher_run k a w :
  remove_session_watcher k a w
  = (Return tt, mkWorld (after_remove_session_watcher k a (hub w)) (wire w)).
Proof.
  unfold remove_session_watcher, after_remove_session_watcher, strip_watcher.
  py_unfold. destruct (session_watchers (hub w) !! k) as [l|] eqn:Ek.
  - rewrite (contains_true _ _ _ Ek).
    destruct (bool_decide (a ∈ l)).
    + py_fields. rewrite lookup_insert_eq.
      destruct (remove_first a l) as [|x l']; cbn [list_truthy negb]; [|done].
      py_fields. by rewrite delete_insert_eq.
    + rewrite (insert_id _ _ _ Ek). unfold set_session_watchers.
      by rewrite manager_eta, world_eta.
  - rewrite (contains_false _ _ Ek). by rewrite world_eta.
Qed.

Lemma send_loop_run env m (sockets : list WebSocket) :
  ∀ dead w,
    for_fold sockets dead
      (λ dead_sockets websocket,
         try_except (send_json env websocket m ;;; ret dead_sockets)
           (λ _, ret (dead_sockets ++ [websocket]))) w
    = (Return (send_all env m sockets dead (wire w)).1,
       mkWorld (hub w) (send_all env m sockets dead (wire w)).2).
Proof.
  induction sockets as [|ws rest IH]; intros dead w.
  - cbn. unfold ret. by rewrite world_eta.
  - cbn [for_fold send_all].
    destruct (transport_send env (wire w) ws m) as [e|] eqn:Et.
    + erewrite bind_run; last first.
      { unfold try_except, bind, send_json. rewrite Et. reflexivity. }
      by rewrite IH.
    + erewrite bind_run; last first.
      { unfold try_except, bind, send_json. rewrite Et. reflexivity. }
      by rewrite IH.
Qed.

Lemma reap_loop_run u (dead : list WebSocket) :
  ∀ w, for_each dead (λ ws, disconnect u ws) w
       = (Return tt,
          mkWorld (foldl (λ s ws, after_disconnect u ws s) (hub w) dead) (wire w)).
Proof.
  induction dead as [|ws dead IH]; intros w.
  - cbn. unfold ret. by rewrite world_eta.
  - cbn [for_each foldl]. erewrite bind_run; [|apply disconnect_run].
    by rewrite IH.
Qed.

Lemma send_to_user_run env u m w :
  send_to_user env u m w = (Return tt, after_send_to_user env u m w).
Proof.
  unfold send_to_user, after_send_to_user.
  erewrite bind_run; [|reflexivity].
  destruct (connections (hub w) !! u) as [l|] eqn:El.
  - rewrite (contains_true _ _ _ El). cbn [negb].
    erewrite bind_run; [|by unfold getitem; rewrite El].
    erewrite bind_run; [|apply send_loop_run].
    by rewrite reap_loop_run.
  - by rewrite (contains_false _ _ El).
Qed.

Lemma close_loop_run env (items : list (Z * list WebSocket)) :
  ∀ w, ∃ tr,
    for_each items
      (λ kv, for_each kv.2
               (λ ws, try_except (close env ws 1001 "Server shutdown")
                        (λ _, ret tt))) w
    = (Return tt, mkWorld (hub w) tr).
Proof.
  induction items as [|[u l] items IH]; intros w.
  - exists (wire w). cbn. unfold ret. by rewrite world_eta.
  - cbn [for_each snd].
    assert (∀ w, ∃ tr,
      for_each l (λ ws, try_except (close env ws 1001 "Server shutdown")
                          (λ _, ret tt)) w = (Return tt, mkWorld (hub w) tr)) as Hin.
    { clear. induction l as [|ws l IHl]; intros w.
      - exists (wire w). cbn. unfold ret. by rewrite world_eta.
      - cbn [for_each].
        destruct (IHl (mkWorld (hub w)
                    (wire w ++ [CloseSocket ws 1001 "Server shutdown"
                                  (bool_decide (transport_close env (wire w) ws = None))])))
          as [tr Htr].
        exists tr. erewrite bind_run; [exact Htr|].
        unfold try_except, close, ret.
        destruct (transport_close env (wire w) ws); done. }
    destruct (Hin w) as [tr1 H1]. destruct (IH (mkWorld (hub w) tr1)) as [tr2 H2].
    exists tr2. erewrite bind_run; [exact H2 | exact H1].
Qed.

Lemma disconnect_all_run env w :
  ∃ tr, disconnect_all env w = (Return tt, mkWorld new_manager tr).
Proof.
  unfold disconnect_all. erewrite bind_run; [|reflexivity].
  destruct (close_loop_run env (map_to_list (connections (hub w))) w) as [tr Htr].
  exists tr. erewrite bind_run; [|exact Htr]. reflexivity.
Qed.

(** ** The fields of the state after a call *)

Lemma after_disconnect_connections u ws s :
  connections (after_disconnect u ws s) = connections (drop_socket u ws s).
Proof.
  unfold after_disconnect, drop_watcher, drop_sessions. cbn.
  destruct (user_sessions _ !! u); [|done]. cbv zeta. by destruct (dict_truthy _).
Qed.

Lemma after_disconnect_user_sessions u ws s :
  user_sessions (after_disconnect u ws s) = user_sessions (drop_sessions u ws s).
Proof.
  assert (user_sessions (drop_socket u ws s) = user_sessions s) as Hsame.
  { unfold drop_socket. by repeat (case_match; cbn; try done). }
  unfold after_disconnect, drop_watcher, drop_sessions. cbn. rewrite Hsame.
  by repeat (case_match; cbn; try done).
Qed.

Lemma drop_socket_sessions_watchers u ws s :
  session_watchers (drop_sessions u ws (drop_socket u ws s)) = session_watchers s.
Proof.
  unfold drop_sessions, drop_socket.
  repeat (case_match;
          cbn [session_watchers set_user_sessions set_connections set_user_roles];
          try done).
Qed.

Lemma after_disconnect_watchers u ws s k :
  session_watchers (after_disconnect u ws s) !! k
  = session_watchers s !! k ≫= strip_watcher u.
Proof.
  unfold after_disconnect. cbn. by rewrite lookup_omap, drop_socket_sessions_watchers.
Qed.

Lemma after_connect_connections env u ws sid s :
  connections (after_connect env u ws sid s)
  = <[u := default [] (connections s !! u) ++ [ws]]> (connections s).
Proof.
  unfold after_connect. cbv zeta.
  destruct (connections s !! u); destruct sid as [sid|];
    try destruct (bool_decide (sid = EmptyString)); done.
Qed.

Lemma after_send_to_user_watchers (P : option (list Z) → Prop) env u m w k :
  P (session_watchers (hub w) !! k) →
  (∀ o, P o → P (o ≫= strip_watcher u)) →
  P (session_watchers (hub (after_send_to_user env u m w)) !! k).
Proof.
  intros Hstart Hstep. unfold after_send_to_user.
  destruct (connections (hub w) !! u) as [l|]; [|done]. cbn [hub].
  generalize (send_all env m l [] (wire w)).1. intros dead.
  revert Hstart. generalize (hub w). induction dead as [|ws dead IH]; intros s Hs; [done|].
  cbn [foldl]. apply IH. rewrite after_disconnect_watchers. by apply Hstep.
Qed.

Lemma strip_watcher_other u l : u ∉ l → strip_watcher u l = Some l.
Proof. intros Hn. unfold strip_watcher. by rewrite bool_decide_eq_false_2. Qed.

Lemma strip_watcher_Some u l l' :
  NoDup l → l ≠ [] → strip_watcher u l = Some l' →
  l' ≠ [] ∧ NoDup l' ∧ l' = filter (λ a, a ≠ u) l.
Proof.
  unfold strip_watcher. intros Hnd Hne. case_bool_decide as Hin.
  - rewrite <-(remove_first_NoDup u l Hnd).
    pose proof (remove_first_sublist u l) as Hsub.
    destruct (remove_first u l) as [|x r]; [done|]. intros [= <-].
    split; [done|]. split; [|done]. by eapply sublist_NoDup.
  - intros [= <-]. split; [|split; [done|]].
    + done.
    + symmetry. apply filter_keeps_all. intros y Hy ->. done.
Qed.

Lemma strip_watcher_filter u l :
  NoDup l → default [] (strip_watcher u l) = filter (λ a, a ≠ u) l.
Proof.
  intros Hnd. unfold strip_watcher. case_bool_decide as Hin.
  - rewrite <-(remove_first_NoDup u l Hnd). by destruct (remove_first u l).
  - cbn. symmetry. apply filter_keeps_all. by intros y Hy ->.
Qed.

Lemma strip_watcher_shorter u o :
  (length (default [] (o ≫= strip_watcher u)) ≤ length (default [] o))%nat.
Proof.
  destruct o as [l|]; [|done]. cbn. unfold strip_watcher.
  case_bool_decide as Hin; [|done].
  pose proof (remove_first_length u l Hin) as Hlen.
  destruct (remove_first u l); cbn in *; lia.
Qed.

Lemma live_watcher s sid l i :
  session_watchers s !! sid = Some l →
  default [] (session_watchers s !! sid) !! i = l !! i.
Proof. by intros ->. Qed.

Lemma reap_one_of_many u ws s l :
  connections s !! u = Some l → ws ∈ l → (2 ≤ length l)%nat →
  connections (after_disconnect u ws s) !! u = Some (remove_first ws l).
Proof.
  intros Hl Hin Hlen. rewrite after_disconnect_connections. unfold drop_socket.
  rewrite Hl, bool_decide_eq_true_2 by done.
  pose proof (remove_first_length ws l Hin) as Hr.
  destruct (remove_first ws l) as [|x r] eqn:Er; [cbn in Hr; lia|].
  cbn. by rewrite lookup_insert_eq.
Qed.

Lemma reap_one_of_three u s (w1 w2 w3 dead a b : WebSocket) :
  connections s !! u = Some [w1; w2; w3] →
  [w1; w2; w3] ≡ₚ dead :: [a; b] →
  ∃ l', connections (after_disconnect u dead s) !! u = Some l' ∧
        length l' = 2%nat ∧ l' ≡ₚ [a; b].
Proof.
  intros Hl Hperm.
  assert (dead ∈ [w1; w2; w3]) as Hin by (rewrite Hperm; left).
  exists (remove_first dead [w1; w2; w3]). split; [|split].
  - apply (reap_one_of_many u dead s _ Hl Hin). cbn. lia.
  - pose proof (remove_first_length dead _ Hin) as Hlen. cbn in Hlen. cbn. lia.
  - apply (inj (cons dead)).
    by rewrite <-(remove_first_Permutation dead _ Hin).
Qed.

Lemma add_present k a s l :
  session_watchers s !! k = Some l → a ∈ l → after_add_session_watcher k a s = s.
Proof.
  intros Hk Hin. unfold after_add_session_watcher.
  by rewrite Hk, bool_decide_eq_true_2.
Qed.

Lemma add_makes_present k a s :
  ∃ l, session_watchers (after_add_session_watcher k a s) !! k = Some l ∧ a ∈ l.
Proof.
  unfold after_add_session_watcher.
  destruct (session_watchers s !! k) as [l|] eqn:Ek.
  - case_bool_decide as Hin; [by eauto|]. cbn. rewrite lookup_insert_eq.
    eexists. split; [done|]. apply elem_of_app. right. left.
  - cbn. rewrite lookup_insert_eq. eexists. split; [done | left].
Qed.

Lemma drop_socket_absent u ws s :
  (∀ l, connections s !! u = Some l → ws ∉ l) → drop_socket u ws s = s.
Proof.
  intros Hno. unfold drop_socket.
  destruct (connections s !! u) as [l|]; [|done].
  by rewrite bool_decide_eq_false_2 by auto.
Qed.

Lemma drop_sessions_absent u ws s :
  (∀ mine, user_sessions s !! u = Some mine →
           mine ≠ ∅ ∧ ∀ k v, mine !! k = Some v → v ≠ ws) →
  drop_sessions u ws s = s.
Proof.
  intros Hno. unfold drop_sessions.
  destruct (user_sessions s !! u) as [mine|] eqn:Eu; [|done].
  destruct (Hno mine eq_refl) as [Hne Hv]. cbv zeta.
  assert (filter (λ kv : string * WebSocket, kv.2 ≠ ws) mine = mine) as ->.
  { apply map_filter_id. intros k v. apply Hv. }
  unfold dict_truthy. rewrite bool_decide_eq_false_2 by done. cbn.
  rewrite (insert_id _ _ _ Eu). unfold set_user_sessions. by rewrite manager_eta.
Qed.

Lemma drop_watcher_absent u s :
  (∀ k l, session_watchers s !! k = Some l → u ∉ l) → drop_watcher u s = s.
Proof.
  intros Hno. unfold drop_watcher.
  assert (omap (strip_watcher u) (session_watchers s) = session_watchers s) as ->.
  { apply map_eq. intros k. rewrite lookup_omap.
    destruct (session_watchers s !! k) as [l|] eqn:Ek; [|done]. cbn.
    unfold strip_watcher. by rewrite bool_decide_eq_false_2 by eauto. }
  unfold set_session_watchers. by rewrite manager_eta.
Qed.

Lemma total_sockets_fresh conns u l :
  conns !! u = None →
  total_sockets (<[u := l]> conns) = (length l + total_sockets conns)%nat.
Proof.
  intros Hu. unfold total_sockets.
  apply (map_fold_insert_L (λ _ sockets total, (length sockets + total)%nat));
    [|done].
  intros. lia.
Qed.

Lemma total_sockets_insert conns u l :
  (total_sockets (<[u := l]> conns) + length (default [] (conns !! u)))%nat
  = (total_sockets conns + length l)%nat.
Proof.
  destruct (conns !! u) as [l0|] eqn:Eu; cbn.
  - rewrite <-(insert_delete_eq conns u l).
    rewrite <-(insert_delete_id conns u l0 Eu) at 2.
    rewrite !total_sockets_fresh by apply lookup_delete_eq. lia.
  - rewrite total_sockets_fresh by done. lia.
Qed.

(** ** The invariant is kept *)

Lemma new_manager_consistent : consistent new_manager.
Proof. split; cbn; intros *; rewrite ?lookup_empty; done. Qed.

Lemma is_Some_insert_iff `{Countable K} {V} (m1 : gmap K V) {V'} (m2 : gmap K V') k v1 v2 k' :
  (is_Some (m1 !! k') ↔ is_Some (m2 !! k')) →
  (is_Some (<[k:=v1]> m1 !! k') ↔ is_Some (<[k:=v2]> m2 !! k')).
Proof.
  intros Hiff. destruct (decide (k = k')) as [->|Hne].
  - rewrite !lookup_insert_eq. split; eauto.
  - by rewrite !lookup_insert_ne.
Qed.

Lemma is_Some_delete_iff `{Countable K} {V} (m1 : gmap K V) {V'} (m2 : gmap K V') k k' :
  (is_Some (m1 !! k') ↔ is_Some (m2 !! k')) →
  (is_Some (delete k m1 !! k') ↔ is_Some (delete k m2 !! k')).
Proof.
  intros Hiff. destruct (decide (k = k')) as [->|Hne].
  - rewrite !lookup_delete_eq. split; intros [? ?]; done.
  - by rewrite !lookup_delete_ne.
Qed.

Lemma after_connect_consistent env u ws sid s :
  consistent s → consistent (after_connect env u ws sid s).
Proof.
  intros [Hc Hr Hw Hn].
  assert (consistent
    match connections s !! u with
    | Some l => set_connections (<[u := l ++ [ws]]> (connections s)) s
    | None =>
        set_connections (<[u := [ws]]> (connections s))
          (set_user_roles (<[u := fallback_role env u]> (user_roles s)) s)
    end) as H1.
  { destruct (connections s !! u) as [l|] eqn:El; split; cbn; try done.
    - intros u' l'. destruct (decide (u = u')) as [->|Hne].
      + rewrite lookup_insert_eq. intros [= <-]. by destruct l.
      + rewrite lookup_insert_ne by done. apply Hc.
    - intros u'. destruct (decide (u = u')) as [->|Hne].
      + rewrite lookup_insert_eq. rewrite Hr, El. split; eauto.
      + rewrite lookup_insert_ne by done. apply Hr.
    - intros u' l'. destruct (decide (u = u')) as [->|Hne].
      + rewrite lookup_insert_eq. by intros [= <-].
      + rewrite lookup_insert_ne by done. apply Hc.
    - intros u'. by apply is_Some_insert_iff. }
  unfold after_connect. cbv zeta. destruct sid as [sid|]; [|done].
  destruct (bool_decide (sid = EmptyString)); [done|].
  destruct H1. by split.
Qed.

Lemma drop_socket_consistent u ws s : consistent s → consistent (drop_socket u ws s).
Proof.
  intros [Hc Hr Hw Hn]. unfold drop_socket.
  destruct (connections s !! u) as [l|] eqn:El; [|done].
  destruct (bool_decide (ws ∈ l)); [|done].
  destruct (remove_first ws l) as [|x l'] eqn:Er; split; cbn; try done.
  - intros u' l'. destruct (decide (u = u')) as [->|Hne].
    + by rewrite lookup_delete_eq.
    + rewrite lookup_delete_ne by done. apply Hc.
  - intros u'. by apply is_Some_delete_iff.
  - intros u' l''. destruct (decide (u = u')) as [->|Hne].
    + rewrite lookup_insert_eq. by intros [= <-].
    + rewrite lookup_insert_ne by done. apply Hc.
  - intros u'. destruct (decide (u = u')) as [->|Hne].
    + rewrite lookup_insert_eq. rewrite Hr, El. split; eauto.
    + rewrite lookup_insert_ne by done. apply Hr.
Qed.

Lemma drop_sessions_consistent u ws s : consistent s → consistent (drop_sessions u ws s).
Proof.
  intros [Hc Hr Hw Hn]. unfold drop_sessions.
  destruct (user_sessions s !! u) as [mine|]; [|done].
  cbv zeta. by destruct (dict_truthy _); split.
Qed.

Lemma drop_watcher_consistent u s : consistent s → consistent (drop_watcher u s).
Proof.
  intros [Hc Hr Hw Hn]. split; cbn; try done.
  - intros k l'. rewrite lookup_omap.
    destruct (session_watchers s !! k) as [l|] eqn:Ek; [|done]. cbn.
    intros Hs. by apply strip_watcher_Some in Hs as [? _]; eauto.
  - intros k l'. rewrite lookup_omap.
    destruct (session_watchers s !! k) as [l|] eqn:Ek; [|done]. cbn.
    intros Hs. by apply strip_watcher_Some in Hs as (_ & ? & _); eauto.
Qed.

Lemma after_disconnect_consistent u ws s :
  consistent s → consistent (after_disconnect u ws s).
Proof.
  intros Hs. unfold after_disconnect.
  by apply drop_watcher_consistent, drop_sessions_consistent, drop_socket_consistent.
Qed.

Lemma after_add_session_watcher_consistent k a s :
  consistent s → consistent (after_add_session_watcher k a s).
Proof.
  intros [Hc Hr Hw Hn]. unfold after_add_session_watcher.
  destruct (session_watchers s !! k) as [l|] eqn:Ek.
  - case_bool_decide as Hin; [done|]. split; cbn; try done.
    + intros k' l'. destruct (decide (k = k')) as [->|Hne].
      * rewrite lookup_insert_eq. intros [= <-]. by destruct l.
      * rewrite lookup_insert_ne by done. apply Hw.
    + intros k' l'. destruct (decide (k = k')) as [->|Hne].
      * rewrite lookup_insert_eq. intros [= <-].
        apply NoDup_app. split; [by eapply Hn|]. split; [|apply NoDup_singleton].
        intros x Hx ?%list_elem_of_singleton. by subst.
      * rewrite lookup_insert_ne by done. apply Hn.
  - split; cbn; try done.
    + intros k' l'. destruct (decide (k = k')) as [->|Hne].
      * rewrite lookup_insert_eq. by intros [= <-].
      * rewrite lookup_insert_ne by done. apply Hw.
    + intros k' l'. destruct (decide (k = k')) as [->|Hne].
      * rewrite lookup_insert_eq. intros [= <-]. apply NoDup_singleton.
      * rewrite lookup_insert_ne by done. apply Hn.
Qed.

Lemma after_remove_session_watcher_consistent k a s :
  consistent s → consistent (after_remove_session_watcher k a s).
Proof.
  intros [Hc Hr Hw Hn]. unfold after_remove_session_watcher.
  destruct (session_watchers s !! k) as [l|] eqn:Ek; [|done].
  destruct (strip_watcher a l) as [l'|] eqn:Es.
  - apply strip_watcher_Some in Es as (? & ? & _); eauto.
    split; cbn; try done.
    + intros k' l''. destruct (decide (k = k')) as [->|Hne].
      * rewrite lookup_insert_eq. by intros [= <-].
      * rewrite lookup_insert_ne by done. apply Hw.
    + intros k' l''. destruct (decide (k = k')) as [->|Hne].
      * rewrite lookup_insert_eq. by intros [= <-].
      * rewrite lookup_insert_ne by done. apply Hn.
  - split; cbn; try done.
    + intros k' l''. destruct (decide (k = k')) as [->|Hne].
      * by rewrite lookup_delete_eq.
      * rewrite lookup_delete_ne by done. apply Hw.
    + intros k' l''. destruct (decide (k = k')) as [->|Hne].
      * by rewrite lookup_delete_eq.
      * rewrite lookup_delete_ne by done. apply Hn.
Qed.

Lemma reap_consistent u (dead : list WebSocket) :
  ∀ s, consistent s → consistent (foldl (λ s ws, after_disconnect u ws s) s dead).
Proof.
  induction dead as [|ws dead IH]; intros s Hs; [done|].
  cbn. by apply IH, after_disconnect_consistent.
Qed.

Lemma after_send_to_user_consistent env u m w :
  consistent (hub w) → consistent (hub (after_send_to_user env u m w)).
Proof.
  intros Hs. unfold after_send_to_user.
  destruct (connections (hub w) !! u); [|done]. cbn. by apply reap_consistent.
Qed.

Section Keeps.

Context (P : ConnectionManager → Prop).

Lemma keeps_ret {A} (a : A) : keeps P (ret a).
Proof. intros w o w' [= <- <-]. done. Qed.

Lemma keeps_get_self : keeps P get_self.
Proof. intros w o w' [= <- <-]. done. Qed.

Lemma keeps_getitem `{Countable K} {V} (d : gmap K V) k : keeps P (getitem d k).
Proof. intros w o w'. unfold getitem. destruct (d !! k); intros [= <- <-]; done. Qed.

Lemma keeps_bind {A B} (c : Py A) (k : A → Py B) :
  keeps P c → (∀ a, keeps P (k a)) → keeps P (bind c k).
Proof.
  intros Hc Hk w o w'. unfold bind.
  destruct (c w) as [[a|e|] w1] eqn:Ec.
  - intros Hka Hw. eapply Hk; [exact Hka|]. eapply Hc; eauto.
  - intros [= <- <-] Hw. eapply Hc; eauto.
  - intros [= <- <-] Hw. eapply Hc; eauto.
Qed.

Lemma keeps_when b (c : Py unit) : keeps P c → keeps P (when b c).
Proof. destruct b; [done|]. intros _. apply keeps_ret. Qed.

Lemma keeps_try_except {A} (c : Py A) h :
  keeps P c → (∀ e, keeps P (h e)) → keeps P (try_except c h).
Proof.
  intros Hc Hh w o w'. unfold try_except.
  destruct (c w) as [[a|e|] w1] eqn:Ec.
  - intros [= <- <-] Hw. eapply Hc; eauto.
  - intros Hhe Hw. eapply Hh; [exact Hhe|]. eapply Hc; eauto.
  - intros [= <- <-] Hw. eapply Hc; eauto.
Qed.

Lemma keeps_for_each {A} (xs : list A) body :
  (∀ x, keeps P (body x)) → keeps P (for_each xs body).
Proof.
  intros Hb. induction xs as [|x xs IH]; cbn [for_each].
  - apply keeps_ret.
  - apply keeps_bind; [apply Hb | intros _; apply IH].
Qed.

Lemma keeps_for_each_watcher fuel sid body :
  (∀ x, keeps P (body x)) → ∀ i, keeps P (for_each_watcher fuel sid i body).
Proof.
  intros Hb. induction fuel as [|fuel IH]; intros i; cbn [for_each_watcher].
  - apply keeps_bind; [apply keeps_get_self|]. intros self.
    destruct (_ !! i); [|apply keeps_ret]. by intros w o w' [= <- <-].
  - apply keeps_bind; [apply keeps_get_self|]. intros self.
    destruct (_ !! i); [|apply keeps_ret].
    apply keeps_bind; [apply Hb | intros _; apply IH].
Qed.

End Keeps.

Lemma keeps_send_to_user env u m : keeps consistent (send_to_user env u m).
Proof.
  intros w o w'. rewrite send_to_user_run. intros [= <- <-].
  apply after_send_to_user_consistent.
Qed.

Lemma keeps_gather (tasks : list (Py unit)) :
  Forall (keeps consistent) tasks → keeps consistent (gather tasks).
Proof.
  unfold gather. induction 1 as [|task tasks Ht _ IH]; cbn [for_each].
  - apply keeps_ret.
  - apply keeps_bind; [|intros _; apply IH].
    apply keeps_try_except; [done|]. intros _. apply keeps_ret.
Qed.

Lemma keeps_run_call env c : keeps consistent (run_call env c).
Proof.
  destruct c; cbn [run_call].
  - intros w o w'. rewrite connect_run. intros [= <- <-].
    apply after_connect_consistent.
  - intros w o w'. rewrite disconnect_run. intros [= <- <-].
    apply after_disconnect_consistent.
  - apply keeps_send_to_user.
  - unfold send_to_session.
    apply keeps_bind.
    { intros w o w'. unfold _get_session_user_id, try_except, ret, raise.
      destruct (select_session_user env session_id); intros [= <- <-]; done. }
    intros [owner|]; [|apply keeps_ret].
    case_bool_decide; [apply keeps_ret|].
    apply keeps_bind; [apply keeps_when, keeps_send_to_user|]. intros _.
    apply keeps_bind; [apply keeps_get_self|]. intros self.
    apply keeps_when. apply keeps_bind; [apply keeps_getitem|]. intros watchers.
    apply keeps_for_each_watcher. intros a. apply keeps_when, keeps_send_to_user.
  - unfold broadcast_to_role. apply keeps_bind; [apply keeps_get_self|]. intros self.
    apply keeps_gather. apply Forall_fmap, Forall_true. intros u.
    apply keeps_send_to_user.
  - unfold broadcast_all. apply keeps_bind; [apply keeps_get_self|]. intros self.
    apply keeps_gather. apply Forall_fmap, Forall_true. intros u.
    apply keeps_send_to_user.
  - intros w o w'. rewrite add_session_watcher_run. intros [= <- <-].
    apply after_add_session_watcher_consistent.
  - intros w o w'. rewrite remove_session_watcher_run. intros [= <- <-].
    apply after_remove_session_watcher_consistent.
  - intros w o w'. destruct (disconnect_all_run env w) as [tr ->].
    intros [= <- <-] _. apply new_manager_consistent.
Qed.

Lemma reachable_consistent w : reachable w → consistent (hub w).
Proof.
  induction 1 as [|env c w o w' _ IH Hrun].
  - apply new_manager_consistent.
  - by eapply keeps_run_call.
Qed.

(** ** Every call returns *)

Lemma send_to_user_watchers_shorter env u m w sid :
  (length (default [] (session_watchers (hub (after_send_to_user env u m w)) !! sid))
   ≤ length (default [] (session_watchers (hub w) !! sid)))%nat.
Proof.
  apply (after_send_to_user_watchers
           (λ o, (length (default [] o)
                  ≤ length (default [] (session_watchers (hub w) !! sid)))%nat));
    [done|].
  intros o Ho. etransitivity; [apply strip_watcher_shorter | done].
Qed.

Lemma for_each_watcher_returns env sid m exclude_user fuel :
  ∀ i w,
    (length (default [] (session_watchers (hub w) !! sid)) ≤ i + fuel)%nat →
    ∃ w', for_each_watcher fuel sid i
            (λ admin_id,
               when (bool_decide (Some admin_id ≠ exclude_user))
                 (send_to_user env admin_id m)) w
          = (Return tt, w').
Proof.
  induction fuel as [|fuel IH]; intros i w Hlen; cbn [for_each_watcher].
  - erewrite bind_run; [|reflexivity]. cbv beta.
    destruct (default [] (session_watchers (hub w) !! sid) !! i) as [a|] eqn:Ei;
      [|by eexists].
    apply lookup_lt_Some in Ei. lia.
  - erewrite bind_run; [|reflexivity]. cbv beta.
    destruct (default [] (session_watchers (hub w) !! sid) !! i) as [a|] eqn:Ei;
      [|by eexists].
    destruct (bool_decide (Some a ≠ exclude_user)); cbn [when].
    + erewrite bind_run; [|apply send_to_user_run].
      apply IH. pose proof (send_to_user_watchers_shorter env a m w sid). lia.
    + erewrite bind_run; [|reflexivity]. apply IH. lia.
Qed.

Lemma send_to_session_returns env sid m exclude_user w :
  ∃ w', send_to_session env sid m exclude_user w = (Return tt, w').
Proof.
  unfold send_to_session.
  erewrite bind_run; [|apply _get_session_user_id_run].
  destruct (match select_session_user env sid with Row o => o | _ => None end)
    as [owner|]; [|by eexists].
  case_bool_decide; [by eexists|].
  assert (∃ w1, when (bool_decide (Some owner ≠ exclude_user))
                  (send_to_user env owner m) w = (Return tt, w1)) as [w1 Hw1].
  { destruct (bool_decide _); cbn [when]; [|by eexists].
    eexists. apply send_to_user_run. }
  erewrite bind_run; [|exact Hw1].
  erewrite bind_run; [|reflexivity]. cbv beta.
  destruct (session_watchers (hub w1) !! sid) as [l|] eqn:El.
  - rewrite (contains_true _ _ _ El). cbn [when].
    erewrite bind_run; [|by unfold getitem; rewrite El].
    apply for_each_watcher_returns. rewrite El. cbn. lia.
  - rewrite (contains_false _ _ El). by eexists.
Qed.

Lemma gather_sends_returns env m (us : list Z) :
  ∀ w, ∃ w', gather (map (λ u, send_to_user env u m) us) w = (Return tt, w').
Proof.
  unfold gather. induction us as [|u us IH]; intros w; cbn [map for_each].
  - by eexists.
  - erewrite bind_run; [apply IH|].
    unfold try_except. by rewrite send_to_user_run.
Qed.

Lemma run_call_returns env c w : ∃ w', run_call env c w = (Return tt, w').
Proof.
  destruct c; cbn [run_call].
  - eexists. apply connect_run.
  - eexists. apply disconnect_run.
  - eexists. apply send_to_user_run.
  - apply send_to_session_returns.
  - unfold broadcast_to_role. erewrite bind_run; [|reflexivity].
    apply gather_sends_returns.
  - unfold broadcast_all. erewrite bind_run; [|reflexivity].
    apply gather_sends_returns.
  - eexists. apply add_session_watcher_run.
  - eexists. apply remove_session_watcher_run.
  - destruct (disconnect_all_run env w) as [tr Htr]. by eexists.
Qed.

(** The watcher loop of [send_to_session] runs over the list that reaping
    shrinks: the only socket of watcher 5 is dead, so 5 is taken out of
    the list while the loop stands at it, and watcher 6, who moved into
    its place, gets no send. *)
Lemma reaped_watcher_hides_next :
  ∃ w', send_to_session flaky_routed_env "s" [] None routed_world = (Return tt, w') ∧
        wire w' = [SendJson 1%positive [] true; SendJson 2%positive [] false] ∧
        session_watchers (hub w') !! "s" = Some [6] ∧
        connections (hub w') !! 6 = Some [3%positive].
Proof. eexists. split; [by vm_compute|]. by vm_compute. Qed.

(** ** The concrete states are reachable *)

Lemma two_tabs_watching_reachable : reachable two_tabs_watching.
Proof.
  apply (reachable_call quiet_env (AddSessionWatcher "s" 1)
           (mkWorld (mkManager {[1 := [1; 2]%positive]} ∅ ∅ {[1 := "admin"]}) [])
           (Return tt)); [|by vm_compute].
  apply (reachable_call quiet_env (Connect 1 2%positive None)
           (mkWorld (mkManager {[1 := [1]%positive]} ∅ ∅ {[1 := "admin"]}) [])
           (Return tt)); [|by vm_compute].
  apply (reachable_call quiet_env (Connect 1 1%positive None)
           (mkWorld new_manager []) (Return tt)); [|by vm_compute].
  apply reachable_new.
Qed.

Lemma same_tab_twice_reachable : reachable same_tab_twice.
Proof.
  apply (reachable_call quiet_env (Connect 1 5%positive None)
           (mkWorld (mkManager {[1 := [5]%positive]} ∅ ∅ {[1 := "admin"]}) [])
           (Return tt)); [|by vm_compute].
  apply (reachable_call quiet_env (Connect 1 5%positive None)
           (mkWorld new_manager []) (Return tt)); [|by vm_compute].
  apply reachable_new.
Qed.

(** * The properties of the specification *)

(** C1.  Fan-out of [send_to_user].  When the user has the three
    connections [w1], [w2], [w3], the call returns and the trace grows by
    one send of the message on each of them, in that order.  When exactly
    one of the three sends failed, the user is left with exactly two
    connections, which are the two whose send succeeded, and the trace
    holds a successful send of the message on each of them.  When the user
    has no connection, the call returns and leaves state and trace as they
    were. *)
Theorem send_to_user_fan_out env u m w :
  (∀ w1 w2 w3,
     connections (hub w) !! u = Some [w1; w2; w3] →
     ∃ ok1 ok2 ok3 w',
       send_to_user env u m w = (Return tt, w') ∧
       wire w' = wire w ++ [SendJson w1 m ok1; SendJson w2 m ok2; SendJson w3 m ok3] ∧
       (length (filter (λ ok, ok = false) [ok1; ok2; ok3]) = 1%nat →
        ∃ l', connections (hub w') !! u = Some l' ∧
              length l' = 2%nat ∧
              l' ≡ₚ (filter (λ p, p.2 = true)
                       [(w1, ok1); (w2, ok2); (w3, ok3)]).*1 ∧
              ∀ ws, ws ∈ l' → SendJson ws m true ∈ wire w')) ∧
  (default [] (connections (hub w) !! u) = [] →
   send_to_user env u m w = (Return tt, w)).
Proof.
  split.
  - intros w1 w2 w3 Hl. rewrite send_to_user_run. unfold after_send_to_user.
    rewrite Hl. cbn [send_all].
    set (t0 := wire w).
    destruct (transport_send env t0 w1 m) as [e1|];
      [set (t1 := t0 ++ [SendJson w1 m false]) | set (t1 := t0 ++ [SendJson w1 m true])];
      (destruct (transport_send env t1 w2 m) as [e2|];
       [set (t2 := t1 ++ [SendJson w2 m false]) | set (t2 := t1 ++ [SendJson w2 m true])]);
      destruct (transport_send env t2 w3 m) as [e3|];
      eexists _, _, _, _; (split; [reflexivity|]);
      (split; [cbn [wire snd]; subst t2 t1 t0; by rewrite <-!(assoc_L (++))|]);
      intros Hone; vm_compute in Hone; try discriminate Hone; clear Hone.
    all: cbn [hub wire fst snd foldl app].
    + destruct (reap_one_of_three u (hub w) w1 w2 w3 w1 w2 w3 Hl)
        as (l' & Hl' & Hlen & Hperm); [done|].
      exists l'. split; [done|]. split; [done|]. split; [exact Hperm|].
      intros ws Hin. rewrite Hperm in Hin. subst t2 t1.
      apply elem_of_cons in Hin as [->|Hin]; [|apply list_elem_of_singleton in Hin as ->].
      * apply elem_of_app. left. apply elem_of_app. right. left.
      * apply elem_of_app. right. left.
    + destruct (reap_one_of_three u (hub w) w1 w2 w3 w2 w1 w3 Hl)
        as (l' & Hl' & Hlen & Hperm); [apply Permutation_swap|].
      exists l'. split; [done|]. split; [done|]. split; [exact Hperm|].
      intros ws Hin. rewrite Hperm in Hin. subst t2 t1.
      apply elem_of_cons in Hin as [->|Hin]; [|apply list_elem_of_singleton in Hin as ->].
      * apply elem_of_app. left. apply elem_of_app. left. apply elem_of_app. right. left.
      * apply elem_of_app. right. left.
    + destruct (reap_one_of_three u (hub w) w1 w2 w3 w3 w1 w2 Hl)
        as (l' & Hl' & Hlen & Hperm);
        [apply (Permutation_app_comm [w1; w2] [w3])|].
      exists l'. split; [done|]. split; [done|]. split; [exact Hperm|].
      intros ws Hin. rewrite Hperm in Hin. subst t2 t1.
      apply elem_of_cons in Hin as [->|Hin]; [|apply list_elem_of_singleton in Hin as ->].
      * apply elem_of_app. left. apply elem_of_app. left. apply elem_of_app. right. left.
      * apply elem_of_app. left. apply elem_of_app. right. left.
  - intros Hnone. rewrite send_to_user_run. unfold after_send_to_user.
    destruct (connections (hub w) !! u) as [l|]; [|done].
    cbn in Hnone. subst l. cbn. by rewrite world_eta.
Qed.

Lemma send_to_user_fan_out_witness :
  (∃ w' l',
     send_to_user flaky_env 1 [] three_tabs = (Return tt, w') ∧
     connections (hub w') !! 1 = Some l' ∧ length l' = 2%nat ∧
     l' ≡ₚ [1; 3]%positive) ∧
  send_to_user flaky_env 2 [] three_tabs = (Return tt, three_tabs).
Proof.
  destruct (send_to_user_fan_out flaky_env 1 [] three_tabs) as [Hthree _].
  destruct (send_to_user_fan_out flaky_env 2 [] three_tabs) as [_ Hnone].
  split; [|apply Hnone; by vm_compute].
  destruct (Hthree 1 2 3 ltac:(by vm_compute))%positive
    as (ok1 & ok2 & ok3 & w' & Hrun & Hwire & Hone).
  assert (wire w' = [SendJson 1%positive [] true; SendJson 2%positive [] false;
                     SendJson 3%positive [] true]) as Hsent.
  { apply (f_equal (λ r, wire r.2)) in Hrun. cbn [snd] in Hrun. rewrite <-Hrun.
    by vm_compute. }
  rewrite Hsent in Hwire. cbn in Hwire. injection Hwire as <- <- <-.
  destruct (Hone ltac:(by vm_compute)) as (l' & Hl' & Hlen & Hperm & _).
  by exists w', l'.
Defined.

(** C2.  In every state reachable through the public methods, a user is
    reported online exactly when the number of its registered connections
    is positive, no user is mapped to an empty connection list, and a user
    has a cached role exactly when it has an entry in [connections]. *)
Theorem online_iff_connected w :
  reachable w →
  ∀ u,
    (is_user_online (hub w) u = true
     ↔ (0 < length (default [] (connections (hub w) !! u)))%nat) ∧
    connections (hub w) !! u ≠ Some [] ∧
    (is_Some (user_roles (hub w) !! u) ↔ is_Some (connections (hub w) !! u)).
Proof.
  intros [Hc Hr _ _]%reachable_consistent u. split; [|split].
  - unfold is_user_online, contains. rewrite bool_decide_eq_true.
    destruct (connections (hub w) !! u) as [l|] eqn:El; cbn.
    + specialize (Hc u l El). destruct l; [done|]. cbn. split; [lia | eauto].
    + split; [by intros [? ?] | lia].
  - intros El. by apply (Hc u []).
  - apply Hr.
Qed.

Lemma online_iff_connected_witness :
  (is_user_online (hub two_tabs_watching) 1 = true
   ↔ (0 < length (default [] (connections (hub two_tabs_watching) !! 1%Z)))%nat) ∧
  connections (hub two_tabs_watching) !! 1 ≠ Some [] ∧
  (is_Some (user_roles (hub two_tabs_watching) !! 1)
   ↔ is_Some (connections (hub two_tabs_watching) !! 1)).
Proof.
  apply (online_iff_connected two_tabs_watching two_tabs_watching_reachable 1).
Defined.

(** C3, as stated, fails: admin 1 has two connections and watches session
    [s]; unregistering the first connection leaves the second one
    registered and removes the admin from the watchers of [s]. *)
Lemma non_last_disconnect_strips_watcher : ¬ non_last_disconnect_keeps_watchers.
Proof.
  intros Hclaim.
  destruct (Hclaim two_tabs_watching 1 1%positive [1; 2]%positive)
    as (w' & Hrun & Hsame).
  - apply two_tabs_watching_reachable.
  - by vm_compute.
  - cbn. lia.
  - left.
  - rewrite disconnect_run in Hrun. apply (f_equal snd) in Hrun. cbn in Hrun.
    subst w'. apply (f_equal (λ m, m !! "s")) in Hsame.
    vm_compute in Hsame. discriminate.
Qed.

(** C3, amended.  Where no watcher list holds an admin twice (as in every
    reachable state): [disconnect] of any connection of a user, the last
    one or not, registered or not, removes that user from every watcher
    list and leaves the other admins' entries as they are;
    [remove_session_watcher] removes the admin from that session only;
    [connect] leaves the watcher index unchanged and
    [add_session_watcher] removes nobody. *)
Theorem unregister_strips_watcher w :
  (∀ k l, session_watchers (hub w) !! k = Some l → NoDup l) →
  (∀ u ws, ∃ w',
     disconnect u ws w = (Return tt, w') ∧
     ∀ k, get_session_watchers (hub w') k
          = filter (λ a, a ≠ u) (get_session_watchers (hub w) k)) ∧
  (∀ k a, ∃ w',
     remove_session_watcher k a w = (Return tt, w') ∧
     ∀ k', get_session_watchers (hub w') k'
           = if decide (k' = k)
             then filter (λ a', a' ≠ a) (get_session_watchers (hub w) k)
             else get_session_watchers (hub w) k') ∧
  (∀ env u ws sid, ∃ w',
     connect env u ws sid w = (Return tt, w') ∧
     session_watchers (hub w') = session_watchers (hub w)) ∧
  (∀ k a, ∃ w',
     add_session_watcher k a w = (Return tt, w') ∧
     ∀ k' a', a' ∈ get_session_watchers (hub w) k' →
              a' ∈ get_session_watchers (hub w') k').
Proof.
  intros Hnd. unfold get_session_watchers. split; [|split; [|split]].
  - intros u ws. eexists. split; [apply disconnect_run|]. intros k. cbn.
    rewrite lookup_omap, drop_socket_sessions_watchers.
    destruct (session_watchers (hub w) !! k) as [l|] eqn:Ek; [|done]. cbn.
    apply strip_watcher_filter. by eapply Hnd.
  - intros k a. eexists. split; [apply remove_session_watcher_run|]. intros k'. cbn.
    unfold after_remove_session_watcher.
    destruct (session_watchers (hub w) !! k) as [l|] eqn:Ek.
    + pose proof (strip_watcher_filter a l (Hnd k l Ek)) as Hs.
      destruct (strip_watcher a l) as [l'|]; cbn in *.
      * destruct (decide (k' = k)) as [->|Hne].
        -- by rewrite lookup_insert_eq.
        -- by rewrite lookup_insert_ne.
      * destruct (decide (k' = k)) as [->|Hne].
        -- by rewrite lookup_delete_eq.
        -- by rewrite lookup_delete_ne.
    + destruct (decide (k' = k)) as [->|Hne]; [by rewrite Ek | done].
  - intros env u ws sid. eexists. split; [apply connect_run|]. cbn.
    unfold after_connect. by repeat (case_match; cbn; try done).
  - intros k a. eexists. split; [apply add_session_watcher_run|]. intros k' a'. cbn.
    unfold after_add_session_watcher.
    destruct (session_watchers (hub w) !! k) as [l|] eqn:Ek.
    + case_bool_decide; [done|]. cbn.
      destruct (decide (k' = k)) as [->|Hne].
      * rewrite lookup_insert_eq, Ek. cbn. intros ?. apply elem_of_app. by left.
      * by rewrite lookup_insert_ne.
    + cbn. destruct (decide (k' = k)) as [->|Hne].
      * rewrite Ek. by intros ?%elem_of_nil.
      * by rewrite lookup_insert_ne.
Qed.

Lemma unregister_strips_watcher_witness :
  ∃ w', disconnect 1 1%positive two_tabs_watching = (Return tt, w') ∧
        ∀ k, get_session_watchers (hub w') k
             = filter (λ a, a ≠ 1) (get_session_watchers (hub two_tabs_watching) k).
Proof.
  apply (unregister_strips_watcher two_tabs_watching).
  intros k l Hk.
  destruct (decide (k = "s")) as [->|Hne].
  - vm_compute in Hk. injection Hk as <-. apply NoDup_singleton.
  - cbn in Hk. rewrite lookup_singleton_ne in Hk by done. discriminate.
Defined.

(** C4.  In every reachable state a session has an entry in the watcher
    index exactly when some admin watches it.  Removing its only watcher,
    by [remove_session_watcher] or by a [disconnect] of that admin,
    deletes the entry.  Adding an admin that already watches the session
    changes nothing, and adding twice is adding once. *)
Theorem watch_entry_iff_watched w :
  reachable w →
  (∀ k, is_Some (session_watchers (hub w) !! k)
        ↔ ∃ a, a ∈ get_session_watchers (hub w) k) ∧
  (∀ k a, get_session_watchers (hub w) k = [a] →
     (∃ w', remove_session_watcher k a w = (Return tt, w') ∧
            session_watchers (hub w') !! k = None) ∧
     (∀ ws, ∃ w', disconnect a ws w = (Return tt, w') ∧
                  session_watchers (hub w') !! k = None)) ∧
  (∀ k a, a ∈ get_session_watchers (hub w) k →
     add_session_watcher k a w = (Return tt, w)) ∧
  (∀ k a, ∃ w', add_session_watcher k a w = (Return tt, w') ∧
                add_session_watcher k a w' = (Return tt, w')).
Proof.
  intros [_ _ Hw Hn]%reachable_consistent. unfold get_session_watchers.
  split; [|split; [|split]].
  - intros k. destruct (session_watchers (hub w) !! k) as [l|] eqn:Ek; cbn.
    + specialize (Hw k l Ek). destruct l as [|a l]; [done|].
      split; [intros _; exists a; left | eauto].
    + split; [by intros [? ?] | by intros [a ?%elem_of_nil]].
  - intros k a Hk.
    destruct (session_watchers (hub w) !! k) as [l|] eqn:Ek; [|done].
    cbn in Hk. subst l.
    assert (strip_watcher a [a] = None) as Hs.
    { unfold strip_watcher. rewrite bool_decide_eq_true_2 by left.
      cbn. by rewrite decide_True. }
    split.
    + eexists. split; [apply remove_session_watcher_run|]. cbn.
      unfold after_remove_session_watcher. rewrite Ek, Hs. cbn.
      apply lookup_delete_eq.
    + intros ws. eexists. split; [apply disconnect_run|]. cbn.
      rewrite lookup_omap.
      rewrite drop_socket_sessions_watchers.
      by rewrite Ek.
  - intros k a Hin. rewrite add_session_watcher_run.
    destruct (session_watchers (hub w) !! k) as [l|] eqn:Ek;
      [|by apply elem_of_nil in Hin].
    rewrite (add_present k a (hub w) l Ek Hin). by rewrite world_eta.
  - intros k a. eexists. split; [apply add_session_watcher_run|].
    rewrite add_session_watcher_run. cbn [hub wire].
    destruct (add_makes_present k a (hub w)) as (l & Hl & Hin).
    by rewrite (add_present k a _ l Hl Hin).
Qed.

Lemma watch_entry_iff_watched_witness :
  (is_Some (session_watchers (hub two_tabs_watching) !! "s")
   ↔ ∃ a, a ∈ get_session_watchers (hub two_tabs_watching) "s") ∧
  (∃ w', remove_session_watcher "s" 1 two_tabs_watching = (Return tt, w') ∧
         session_watchers (hub w') !! "s" = None) ∧
  add_session_watcher "s" 1 two_tabs_watching = (Return tt, two_tabs_watching).
Proof.
  destruct (watch_entry_iff_watched two_tabs_watching two_tabs_watching_reachable)
    as (Hiff & Hlast & Hpresent & _).
  split; [apply Hiff|]. split.
  - apply (Hlast "s" 1). by vm_compute.
  - apply Hpresent. vm_compute. left.
Defined.

(** Where the role cache has the keys of [connections]: the target list of
    [broadcast_all] and the one of [broadcast_to_role] with the role [all]
    hold the same users, who are the connected users; for any other role,
    the target list holds the connected users whose cached role is that
    role.  No list holds a user twice. *)
Lemma broadcast_target_lists (s : ConnectionManager) :
  (∀ u, is_Some (user_roles s !! u) ↔ is_Some (connections s !! u)) →
  (∀ u, u ∈ broadcast_all_targets s ↔ u ∈ broadcast_to_role_targets "all" s) ∧
  (∀ u, u ∈ broadcast_all_targets s ↔ is_user_online s u = true) ∧
  (∀ role u, role ≠ "all" →
     u ∈ broadcast_to_role_targets role s
     ↔ is_user_online s u = true ∧ user_roles s !! u = Some role) ∧
  NoDup (broadcast_all_targets s) ∧
  (∀ role, NoDup (broadcast_to_role_targets role s)).
Proof.
  intros Hr.
  assert (∀ u, u ∈ broadcast_all_targets s ↔ is_Some (connections s !! u)) as Hall.
  { intros u. unfold broadcast_all_targets. rewrite list_elem_of_fmap. split.
    - intros [[u' l] [-> Hin]]. apply elem_of_map_to_list in Hin. cbn. eauto.
    - intros [l Hl]. exists (u, l). split; [done|]. by apply elem_of_map_to_list. }
  assert (∀ role u, u ∈ broadcast_to_role_targets role s
                    ↔ ∃ r, user_roles s !! u = Some r ∧ (r = role ∨ role = "all"))
    as Hrole.
  { intros role u. unfold broadcast_to_role_targets. rewrite list_elem_of_fmap. split.
    - intros [[u' r] [-> Hin]]. apply list_elem_of_filter in Hin as [Hp Hin].
      apply elem_of_map_to_list in Hin. cbn in *. eauto.
    - intros (r & Hu & Hp). exists (u, r). split; [done|].
      apply list_elem_of_filter. split; [done|]. by apply elem_of_map_to_list. }
  split; [|split; [|split; [|split]]].
  - intros u. rewrite Hall, Hrole, <-Hr. split.
    + intros [r Hu]. eauto.
    + intros (r & Hu & _). eauto.
  - intros u. rewrite Hall. unfold is_user_online, contains.
    by rewrite bool_decide_eq_true.
  - intros role u Hne. rewrite Hrole. unfold is_user_online, contains.
    rewrite bool_decide_eq_true, <-Hr. split.
    + intros (r & Hu & [-> | ?]); [eauto | done].
    + intros [_ Hu]. eauto.
  - apply NoDup_fst_map_to_list.
  - intros role. unfold broadcast_to_role_targets.
    apply NoDup_fmap_fst.
    + intros k v1 v2 H1 H2. apply list_elem_of_filter in H1 as [_ H1], H2 as [_ H2].
      apply elem_of_map_to_list in H1, H2. congruence.
    + apply NoDup_filter, NoDup_map_to_list.
Qed.

(** C6.  A disconnect update of a presence row whose count [c] is not
    negative stores [max 0 (c - 1)], sets the online flag to 1 exactly when
    the new count is positive and to 0 exactly when it is 0, and stores
    the current time as last-seen. *)
Theorem presence_disconnect_floor now user_id (t : gmap Z PresenceRow) r :
  t !! user_id = Some r → 0 ≤ connection_count r →
  ∃ r', update_presence (Db None) now user_id false t !! user_id = Some r' ∧
        connection_count r' = Z.max 0 (connection_count r - 1) ∧
        (is_online r' = 1 ↔ 0 < connection_count r') ∧
        (is_online r' = 0 ↔ connection_count r' = 0) ∧
        last_seen r' = now.
Proof.
  intros Hr Hc. unfold update_presence, update_disconnected. rewrite Hr.
  eexists. split; [apply lookup_insert_eq|]. cbn.
  split; [done|]. case_decide; repeat split; intros; lia.
Qed.

Lemma presence_disconnect_floor_witness :
  ∃ r', update_presence (Db None) "2024-01-01T10:05:00" 7 false one_tab_presence !! 7
        = Some r' ∧
        connection_count r' = Z.max 0 (1 - 1) ∧
        (is_online r' = 1 ↔ 0 < connection_count r') ∧
        (is_online r' = 0 ↔ connection_count r' = 0) ∧
        last_seen r' = "2024-01-01T10:05:00".
Proof.
  apply (presence_disconnect_floor "2024-01-01T10:05:00" 7 one_tab_presence
           (mkPresenceRow 1 "2024-01-01T10:00:00" "2024-01-01T10:00:00" 1)).
  - by vm_compute.
  - cbn. lia.
Defined.

(** C7, as stated, fails: user 1 registered socket 5 twice, a reachable
    state; the first [disconnect] leaves one copy, the second removes it
    and with it the user. *)
Lemma unregister_twice_removes_twice : ¬ unregister_idempotent.
Proof.
  intros Hclaim.
  destruct (Hclaim same_tab_twice 1 5%positive same_tab_twice_reachable)
    as (w1 & Hfirst & Hsecond).
  rewrite disconnect_run in Hfirst. injection Hfirst as <-.
  rewrite disconnect_run in Hsecond.
  apply (f_equal (λ r, connections (hub r.2) !! 1)) in Hsecond.
  vm_compute in Hsecond. discriminate.
Qed.

(** C7, amended.  When the socket occurs at most once in the user's
    connection list and the user occurs at most once in every watcher
    list, [disconnect] returns, and a second [disconnect] of the same pair
    returns and leaves the four dictionaries exactly as the first one left
    them. *)
Theorem unregister_idempotent_once w u ws :
  (∀ l, connections (hub w) !! u = Some l →
        (length (filter (λ x, x = ws) l) ≤ 1)%nat) →
  (∀ k l, session_watchers (hub w) !! k = Some l →
          (length (filter (λ a, a = u) l) ≤ 1)%nat) →
  ∃ w1, disconnect u ws w = (Return tt, w1) ∧
        disconnect u ws w1 = (Return tt, w1).
Proof.
  intros Hconn Hwatch. eexists. split; [apply disconnect_run|].
  rewrite disconnect_run. cbn [hub wire]. f_equal. f_equal.
  set (s := hub w) in *. set (s1 := after_disconnect u ws s).
  assert (drop_socket u ws s1 = s1) as E1.
  { apply drop_socket_absent. intros l. unfold s1.
    rewrite after_disconnect_connections. unfold drop_socket.
    destruct (connections s !! u) as [l0|] eqn:El; [|by rewrite El].
    case_bool_decide as Hin.
    - specialize (Hconn l0 eq_refl).
      pose proof (at_most_once_gone ws l0 Hin Hconn) as Hgone.
      destruct (remove_first ws l0) as [|x r]; cbn.
      + by rewrite lookup_delete_eq.
      + rewrite lookup_insert_eq. by intros [= <-].
    - rewrite El. by intros [= <-]. }
  assert (drop_sessions u ws s1 = s1) as E2.
  { apply drop_sessions_absent. intros mine. unfold s1.
    rewrite after_disconnect_user_sessions. unfold drop_sessions.
    destruct (user_sessions s !! u) as [mine0|] eqn:Eu; [|by rewrite Eu].
    cbv zeta. destruct (dict_truthy _) eqn:Et; cbn.
    - rewrite lookup_insert_eq. intros [= <-]. split.
      + unfold dict_truthy in Et. apply negb_true_iff, bool_decide_eq_false in Et. done.
      + intros k v [_ Hv]%map_lookup_filter_Some. done.
    - by rewrite lookup_delete_eq. }
  assert (drop_watcher u s1 = s1) as E3.
  { apply drop_watcher_absent. intros k l. unfold s1. cbn.
    rewrite lookup_omap, drop_socket_sessions_watchers.
    destruct (session_watchers s !! k) as [l0|] eqn:Ek; [|done]. cbn.
    unfold strip_watcher. case_bool_decide as Hin.
    - pose proof (at_most_once_gone u l0 Hin (Hwatch k l0 Ek)) as Hgone.
      destruct (remove_first u l0); [done|]. by intros [= <-].
    - by intros [= <-]. }
  unfold after_disconnect at 1. by rewrite E1, E2, E3.
Qed.

Lemma unregister_idempotent_once_witness :
  ∃ w1, disconnect 1 1%positive two_tabs_watching = (Return tt, w1) ∧
        disconnect 1 1%positive w1 = (Return tt, w1).
Proof.
  apply (unregister_idempotent_once two_tabs_watching 1 1%positive).
  - intros l Hl. vm_compute in Hl. injection Hl as <-. vm_compute. lia.
  - intros k l Hk. destruct (decide (k = "s")) as [->|Hne].
    + vm_compute in Hk. injection Hk as <-. vm_compute. lia.
    + cbn in Hk. rewrite lookup_singleton_ne in Hk by done. discriminate.
Defined.



(** C9.  When the role lookup raises, [_get_user_role] returns
    [mentorado] and changes nothing, and the first [connect] of the user
    returns, registers the socket and caches that role. *)
Theorem role_lookup_failure_defaults env u e :
  get_effective_role env u = inr e →
  (∀ w, _get_user_role env u w = (Return "mentorado", w)) ∧
  (∀ w ws sid,
     connections (hub w) !! u = None →
     ∃ w', connect env u ws sid w = (Return tt, w') ∧
           connections (hub w') !! u = Some [ws] ∧
           user_roles (hub w') !! u = Some "mentorado").
Proof.
  intros Hraise. split.
  - intros w. rewrite _get_user_role_run. unfold fallback_role. by rewrite Hraise.
  - intros w ws sid Hnew. eexists. split; [apply connect_run|]. cbn.
    unfold after_connect. rewrite Hnew. cbv zeta.
    assert (fallback_role env u = "mentorado") as ->.
    { unfold fallback_role. by rewrite Hraise. }
    destruct sid as [sid|]; [destruct (bool_decide (sid = EmptyString))|]; cbn;
      by rewrite !lookup_insert_eq.
Qed.

Lemma role_lookup_failure_defaults_witness :
  _get_user_role role_down_env 9 (mkWorld new_manager [])
  = (Return "mentorado", mkWorld new_manager []) ∧
  ∃ w', connect role_down_env 9 4%positive None (mkWorld new_manager [])
        = (Return tt, w') ∧
        connections (hub w') !! 9 = Some [4%positive] ∧
        user_roles (hub w') !! 9 = Some "mentorado".
Proof.
  destruct (role_lookup_failure_defaults role_down_env 9
              (OtherError "OperationalError") eq_refl) as [Hrole Hconnect].
  split; [apply Hrole|]. apply Hconnect. by vm_compute.
Defined.

(** C10.  Registering the same socket twice for a user adds two copies of
    it to the user's list and two to [get_connection_count]; one
    [disconnect] then removes one copy only, and the user is still
    online. *)
Theorem register_same_handle_twice env u ws sid1 sid2 w :
  let copies (s : ConnectionManager) :=
    length (filter (λ x, x = ws) (default [] (connections s !! u))) in
  ∃ w1 w2 w3,
    connect env u ws sid1 w = (Return tt, w1) ∧
    connect env u ws sid2 w1 = (Return tt, w2) ∧
    copies (hub w2) = (copies (hub w) + 2)%nat ∧
    get_connection_count (hub w2) = (get_connection_count (hub w) + 2)%nat ∧
    disconnect u ws w2 = (Return tt, w3) ∧
    copies (hub w3) = (copies (hub w) + 1)%nat ∧
    get_connection_count (hub w3) = (get_connection_count (hub w) + 1)%nat ∧
    is_user_online (hub w3) u = true.
Proof.
  intros copies. eexists _, _, _.
  split; [apply connect_run|]. split; [apply connect_run|].
  set (l0 := default [] (connections (hub w) !! u)).
  set (s2 := after_connect env u ws sid2 (after_connect env u ws sid1 (hub w))).
  assert (connections s2 = <[u := l0 ++ [ws; ws]]> (connections (hub w))) as Hc2.
  { unfold s2. rewrite !after_connect_connections, lookup_insert_eq. cbn.
    rewrite insert_insert_eq. by rewrite <-(assoc_L (++)). }
  assert (length (filter (λ x, x = ws) (l0 ++ [ws; ws]))
          = (length (filter (λ x, x = ws) l0) + 2)%nat) as Hcopies.
  { rewrite filter_app, length_app. f_equal.
    rewrite filter_cons_True by done. by rewrite filter_cons_True. }
  assert (get_connection_count s2 = (get_connection_count (hub w) + 2)%nat) as Hn2.
  { unfold get_connection_count. rewrite Hc2.
    pose proof (total_sockets_insert (connections (hub w)) u (l0 ++ [ws; ws])) as Ht.
    unfold total_sockets in Ht. fold l0 in Ht. rewrite length_app in Ht. cbn in Ht. lia. }
  cbn [hub wire]. fold s2.
  split; [by unfold copies; rewrite Hc2, lookup_insert_eq|].
  split; [done|].
  split; [apply disconnect_run|]. cbn [hub]. fold s2.
  assert (ws ∈ l0 ++ [ws; ws]) as Hin by (apply elem_of_app; right; left).
  assert (connections (after_disconnect u ws s2)
          = <[u := remove_first ws (l0 ++ [ws; ws])]> (connections s2)) as Hc3.
  { rewrite after_disconnect_connections. unfold drop_socket.
    rewrite Hc2 at 1. rewrite lookup_insert_eq, bool_decide_eq_true_2 by done.
    pose proof (remove_first_length ws _ Hin) as Hlen.
    rewrite length_app in Hlen. cbn in Hlen.
    destruct (remove_first ws (l0 ++ [ws; ws])); [cbn in Hlen; lia | done]. }
  split; [|split].
  - unfold copies. rewrite Hc3, lookup_insert_eq. cbn.
    rewrite (remove_first_count ws ws _ Hin), decide_True by done.
    rewrite Hcopies. fold l0. lia.
  - unfold get_connection_count in *. rewrite Hc3.
    pose proof (total_sockets_insert (connections s2) u
                  (remove_first ws (l0 ++ [ws; ws]))) as Ht.
    unfold total_sockets in Ht. rewrite Hc2 in Ht at 2. rewrite lookup_insert_eq in Ht.
    cbn in Ht. pose proof (remove_first_length ws _ Hin) as Hlen. lia.
  - unfold is_user_online. rewrite Hc3.
    eapply contains_true. apply lookup_insert_eq.
Qed.

(** * Further properties of the hub and of the presence table *)

(** ** Shutdown *)
Lemma close_sockets_run env (l : list WebSocket) :
  ∀ w, ∃ oks,
    length oks = length l ∧
    for_each l (λ ws, try_except (close env ws 1001 "Server shutdown")
                        (λ _, ret tt)) w
    = (Return tt, mkWorld (hub w) (wire w ++ close_events l oks)).
Proof.
  induction l as [|ws l IH]; intros w.
  - exists []. split; [done|]. cbn. unfold ret, close_events. cbn.
    by rewrite app_nil_r, world_eta.
  - cbn [for_each].
    assert (∃ ok, try_except (close env ws 1001 "Server shutdown") (λ _, ret tt) w
                  = (Return tt, mkWorld (hub w)
                       (wire w ++ [CloseSocket ws 1001 "Server shutdown" ok])))
      as [ok Hone].
    { unfold try_except, close, ret.
      destruct (transport_close env (wire w) ws); by eexists. }
    destruct (IH (mkWorld (hub w)
                    (wire w ++ [CloseSocket ws 1001 "Server shutdown" ok])))
      as (oks & Hlen & Hrun).
    exists (ok :: oks). split; [cbn; lia|].
    erewrite bind_run; [|exact Hone].
    rewrite Hrun. cbn [hub wire]. unfold close_events. cbn [zip_with].
    by rewrite <-(assoc_L (++)).
Qed.

Lemma close_items_run env (items : list (Z * list WebSocket)) :
  ∀ w, ∃ oks,
    length oks = length (concat items.*2) ∧
    for_each items
      (λ kv, for_each kv.2
               (λ ws, try_except (close env ws 1001 "Server shutdown")
                        (λ _, ret tt))) w
    = (Return tt, mkWorld (hub w) (wire w ++ close_events (concat items.*2) oks)).
Proof.
  induction items as [|[u l] items IH]; intros w.
  - exists []. split; [done|]. cbn. unfold ret, close_events. cbn.
    by rewrite app_nil_r, world_eta.
  - cbn [for_each snd fmap list_fmap concat].
    destruct (close_sockets_run env l w) as (oks1 & Hlen1 & Hrun1).
    destruct (IH (mkWorld (hub w) (wire w ++ close_events l oks1)))
      as (oks2 & Hlen2 & Hrun2).
    exists (oks1 ++ oks2). split; [rewrite !length_app; cbn in *; lia|].
    erewrite bind_run; [|exact Hrun1]. rewrite Hrun2. cbn [hub wire].
    unfold close_events. rewrite zip_with_app by done.
    by rewrite <-(assoc_L (++)).
Qed.

Lemma all_sockets_length s : length (all_sockets s) = get_connection_count s.
Proof.
  unfold all_sockets, get_connection_count. rewrite map_fold_foldr.
  induction (map_to_list (connections s)) as [|[k l] items IH]; [done|].
  cbn. rewrite length_app. by rewrite IH.
Qed.


(** X1. [disconnect_all] always returns: it closes every registered socket
    once, with code 1001 and reason [Server shutdown], whether or not a close
    raises, and writes nothing else; it leaves the four dictionaries empty,
    so that no connection and no user is counted and a later [send_to_user]
    sends nothing. *)
Theorem shutdown_closes_and_clears env w :
  ∃ w' evs oks,
    disconnect_all env w = (Return tt, w') ∧
    hub w' = new_manager ∧
    wire w' = wire w ++ evs ∧
    length oks = get_connection_count (hub w) ∧
    evs ≡ₚ close_events (all_sockets (hub w)) oks ∧
    get_connection_count (hub w') = 0%nat ∧
    get_online_users (hub w') = [] ∧
    ∀ env' u m, send_to_user env' u m w' = (Return tt, w').
Proof.
  destruct (close_items_run env (map_to_list (connections (hub w))) w)
    as (oks & Hlen & Hrun).
  eexists _, (close_events (all_sockets (hub w)) oks), oks. split.
  { unfold disconnect_all. erewrite bind_run; [|reflexivity].
    erewrite bind_run; [|exact Hrun]. reflexivity. }
  cbn [hub wire]. split; [done|]. split; [done|].
  split; [by rewrite <-all_sockets_length|].
  split; [done|]. split; [done|]. split; [done|].
  intros env' u m. rewrite send_to_user_run. unfold after_send_to_user. by cbn.
Qed.

(** X2. No sequence of calls of the hub's methods lets an exception escape or
    fails to finish, whatever the role lookup, the session query, the sends
    and the closes do: every call returns [None]. *)
Theorem no_call_raises env (calls : list Call) :
  ∀ w, ∃ w', for_each calls (run_call env) w = (Return tt, w').
Proof.
  induction calls as [|c calls IH]; intros w; cbn [for_each].
  - by eexists.
  - destruct (run_call_returns env c w) as [w1 Hrun].
    erewrite bind_run; [|exact Hrun]. apply IH.
Qed.

(** ** Frames *)
Lemma untouched_refl v s : untouched v s s.
Proof. by repeat split. Qed.

Lemma untouched_trans v s1 s2 s3 :
  untouched v s1 s2 → untouched v s2 s3 → untouched v s1 s3.
Proof.
  intros (Hc1 & Hr1 & Hs1 & Hw1) (Hc2 & Hr2 & Hs2 & Hw2).
  split; [congruence|]. split; [congruence|]. split; [congruence|].
  intros k. by rewrite Hw2, Hw1.
Qed.

Lemma drop_socket_other u v ws s :
  u ≠ v →
  connections (drop_socket u ws s) !! v = connections s !! v ∧
  user_roles (drop_socket u ws s) !! v = user_roles s !! v.
Proof.
  intros Hne. unfold drop_socket.
  destruct (connections s !! u) as [l|]; [|done].
  destruct (bool_decide (ws ∈ l)); [|done].
  destruct (remove_first ws l); cbn.
  - by rewrite !lookup_delete_ne.
  - by rewrite lookup_insert_ne.
Qed.

Lemma after_disconnect_user_roles u ws s :
  user_roles (after_disconnect u ws s) = user_roles (drop_socket u ws s).
Proof.
  unfold after_disconnect, drop_watcher, drop_sessions. cbn.
  destruct (user_sessions _ !! u); [|done]. cbv zeta. by destruct (dict_truthy _).
Qed.

Lemma drop_sessions_other u v ws s :
  u ≠ v → user_sessions (drop_sessions u ws s) !! v = user_sessions s !! v.
Proof.
  intros Hne. unfold drop_sessions.
  destruct (user_sessions s !! u) as [mine|]; [|done]. cbv zeta.
  destruct (dict_truthy _); cbn.
  - by rewrite lookup_insert_ne.
  - by rewrite lookup_delete_ne.
Qed.

Lemma elem_of_remove_first_ne `{EqDecision A} (x y : A) l :
  x ≠ y → y ∈ remove_first x l ↔ y ∈ l.
Proof.
  intros Hne. induction l as [|z l IH]; cbn [remove_first]; [done|].
  case_decide as Hz.
  - subst z. rewrite elem_of_cons. split; [by right|].
    intros [?|?]; [congruence | done].
  - rewrite !elem_of_cons, IH. done.
Qed.

Lemma strip_watcher_other_member u v o :
  u ≠ v → v ∈ default [] (o ≫= strip_watcher u) ↔ v ∈ default [] o.
Proof.
  intros Hne. destruct o as [l|]; [|done]. cbn. unfold strip_watcher.
  case_bool_decide as Hin; [|done].
  rewrite <-(elem_of_remove_first_ne u v l Hne).
  by destruct (remove_first u l).
Qed.

Lemma after_disconnect_untouched u v ws s :
  u ≠ v → untouched v s (after_disconnect u ws s).
Proof.
  intros Hne. split; [|split; [|split]].
  - rewrite after_disconnect_connections. by apply drop_socket_other.
  - rewrite after_disconnect_user_roles. by apply drop_socket_other.
  - rewrite after_disconnect_user_sessions. by apply drop_sessions_other.
  - intros k. unfold get_session_watchers. rewrite after_disconnect_watchers.
    by apply strip_watcher_other_member.
Qed.

Lemma after_send_to_user_ind (P : ConnectionManager → Prop) env u m w :
  P (hub w) → (∀ ws s, P s → P (after_disconnect u ws s)) →
  P (hub (after_send_to_user env u m w)).
Proof.
  intros Hstart Hstep. unfold after_send_to_user.
  destruct (connections (hub w) !! u) as [l|]; [|done]. cbn [hub].
  generalize (send_all env m l [] (wire w)).1. intros dead.
  revert Hstart. generalize (hub w).
  induction dead as [|ws dead IH]; intros s Hs; [done|].
  cbn [foldl]. by apply IH, Hstep.
Qed.

Lemma after_connect_untouched env u v ws sid s :
  u ≠ v → untouched v s (after_connect env u ws sid s).
Proof.
  intros Hne. unfold after_connect. cbv zeta.
  destruct (connections s !! u); destruct sid as [sid|];
    try destruct (bool_decide (sid = EmptyString));
    repeat split; cbn; rewrite ?lookup_insert_ne; done.
Qed.

(** X3. [connect], [disconnect] and [send_to_user] for user [u] leave every
    other user [v] as it was: its sockets, its cached role, its session index
    and the set of sessions it watches. *)
Theorem other_users_untouched env u v w :
  u ≠ v →
  (∀ ws sid, ∃ w', connect env u ws sid w = (Return tt, w') ∧
                   untouched v (hub w) (hub w')) ∧
  (∀ ws, ∃ w', disconnect u ws w = (Return tt, w') ∧
               untouched v (hub w) (hub w')) ∧
  (∀ m, ∃ w', send_to_user env u m w = (Return tt, w') ∧
              untouched v (hub w) (hub w')).
Proof.
  intros Hne. split; [|split].
  - intros ws sid. eexists. split; [apply connect_run|].
    by apply after_connect_untouched.
  - intros ws. eexists. split; [apply disconnect_run|].
    by apply after_disconnect_untouched.
  - intros m. eexists. split; [apply send_to_user_run|].
    apply (after_send_to_user_ind (untouched v (hub w))); [apply untouched_refl|].
    intros ws s Hs. eapply untouched_trans; [exact Hs|].
    by apply after_disconnect_untouched.
Qed.

(** ** Accounting of a fan-out *)
Lemma send_all_shape env m (l : list WebSocket) :
  ∀ dead tr, ∃ oks,
    length oks = length l ∧
    send_all env m l dead tr
    = (dead ++ sockets_with false l oks, tr ++ send_events m l oks).
Proof.
  induction l as [|ws l IH]; intros dead tr.
  - exists []. split; [done|]. cbn. by rewrite !app_nil_r.
  - cbn [send_all]. destruct (transport_send env tr ws m) as [e|].
    + destruct (IH (dead ++ [ws]) (tr ++ [SendJson ws m false])) as (oks & Hlen & ->).
      exists (false :: oks). split; [cbn; lia|].
      unfold sockets_with, send_events. cbn [zip zip_with].
      rewrite filter_cons_True by done. cbn [fmap list_fmap fst].
      by rewrite <-!(assoc_L (++)).
    + destruct (IH dead (tr ++ [SendJson ws m true])) as (oks & Hlen & ->).
      exists (true :: oks). split; [cbn; lia|].
      unfold sockets_with, send_events. cbn [zip zip_with].
      rewrite filter_cons_False by done.
      by rewrite <-!(assoc_L (++)).
Qed.

Lemma split_by_outcome (l : list WebSocket) :
  ∀ oks, length oks = length l →
         l ≡ₚ sockets_with false l oks ++ sockets_with true l oks.
Proof.
  unfold sockets_with.
  induction l as [|ws l IH]; intros [|ok oks] Hlen; try done.
  cbn in Hlen. cbn [zip zip_with]. destruct ok.
  - rewrite filter_cons_False by done. rewrite filter_cons_True by done.
    cbn [fmap list_fmap fst]. rewrite <-Permutation_middle.
    constructor. apply IH. lia.
  - rewrite filter_cons_True by done. rewrite filter_cons_False by done.
    cbn [fmap list_fmap fst app]. constructor. apply IH. lia.
Qed.

Lemma reap_connections u (dead : list WebSocket) :
  ∀ s l rest,
    connections s !! u = Some l → l ≡ₚ dead ++ rest →
    (rest ≠ [] →
     ∃ l', connections (foldl (λ s ws, after_disconnect u ws s) s dead) !! u = Some l' ∧
           l' ≡ₚ rest ∧
           user_roles (foldl (λ s ws, after_disconnect u ws s) s dead) !! u
           = user_roles s !! u) ∧
    (rest = [] → dead ≠ [] →
     connections (foldl (λ s ws, after_disconnect u ws s) s dead) !! u = None ∧
     user_roles (foldl (λ s ws, after_disconnect u ws s) s dead) !! u = None).
Proof.
  induction dead as [|x d IH]; intros s l rest Hl Hperm.
  - cbn. split; [|done]. intros _. exists l. by repeat split.
  - cbn [foldl].
    assert (x ∈ l) as Hin by (rewrite Hperm; left).
    assert (remove_first x l ≡ₚ d ++ rest) as Hperm1.
    { apply (inj (cons x)). by rewrite <-(remove_first_Permutation x l Hin). }
    pose proof (after_disconnect_connections u x s) as Hc1.
    pose proof (after_disconnect_user_roles u x s) as Hr1.
    remember (after_disconnect u x s) as s1 eqn:Hs1. clear Hs1.
    unfold drop_socket in Hc1, Hr1. rewrite Hl in Hc1, Hr1.
    rewrite bool_decide_eq_true_2 in Hc1, Hr1 by done.
    destruct (remove_first x l) as [|y l1] eqn:Er.
    + symmetry in Hperm1. apply Permutation_nil_r, app_eq_nil in Hperm1 as [-> ->].
      cbn [foldl]. split; [done|]. intros _ _. rewrite Hc1, Hr1. cbn.
      by rewrite !lookup_delete_eq.
    + cbn in Hc1, Hr1.
      destruct (IH s1 (y :: l1) rest) as [Hsome Hnone]; [|done|].
      { by rewrite Hc1, lookup_insert_eq. }
      split.
      * intros Hrest. destruct (Hsome Hrest) as (l' & Hl' & Hp & Hr).
        exists l'. split; [done|]. split; [done|]. by rewrite Hr, Hr1.
      * intros -> _. apply Hnone; [done|]. intros ->.
        rewrite app_nil_r in Hperm1. by apply Permutation_nil_r in Hperm1.
Qed.

(** X4. [send_to_user] to a connected user sends the message once to each of
    its sockets, in registration order.  When some send succeeds the user
    keeps exactly the sockets whose send succeeded and its cached role; when
    every send fails the user and its role are removed; when no send fails
    the hub is unchanged. *)
Theorem send_to_user_keeps_successes env u m w l :
  connections (hub w) !! u = Some l →
  ∃ w' oks,
    send_to_user env u m w = (Return tt, w') ∧
    length oks = length l ∧
    wire w' = wire w ++ send_events m l oks ∧
    (sockets_with true l oks ≠ [] →
     ∃ l', connections (hub w') !! u = Some l' ∧
           l' ≡ₚ sockets_with true l oks ∧
           user_roles (hub w') !! u = user_roles (hub w) !! u) ∧
    (l ≠ [] → sockets_with true l oks = [] →
     connections (hub w') !! u = None ∧ user_roles (hub w') !! u = None) ∧
    (sockets_with false l oks = [] → hub w' = hub w).
Proof.
  intros Hl. destruct (send_all_shape env m l [] (wire w)) as (oks & Hlen & Hall).
  exists (after_send_to_user env u m w), oks.
  split; [apply send_to_user_run|]. split; [done|].
  unfold after_send_to_user. rewrite Hl, Hall. cbn [fst snd hub wire app].
  split; [done|].
  pose proof (split_by_outcome l oks Hlen) as Hperm.
  destruct (reap_connections u (sockets_with false l oks) (hub w) l
              (sockets_with true l oks) Hl Hperm) as [Hsome Hnone].
  split; [exact Hsome|]. split.
  - intros Hne Hall_failed. apply Hnone; [done|]. intros Hno_failed.
    rewrite Hall_failed, Hno_failed in Hperm. by apply Permutation_nil_r in Hperm.
  - by intros ->.
Qed.

(** ** The session index *)
Lemma after_connect_user_sessions env u ws sid s :
  user_sessions (after_connect env u ws sid s)
  = match sid with
    | Some k =>
        if bool_decide (k = EmptyString) then user_sessions s
        else <[u := <[k := ws]> (default ∅ (user_sessions s !! u))]> (user_sessions s)
    | None => user_sessions s
    end.
Proof.
  unfold after_connect. cbv zeta.
  destruct (connections s !! u); destruct sid as [k|];
    try destruct (bool_decide (k = EmptyString)); done.
Qed.

Lemma drop_sessions_user_sessions u ws s :
  user_sessions (drop_sessions u ws s)
  = match user_sessions s !! u with
    | Some mine =>
        if dict_truthy (filter (λ kv : string * WebSocket, kv.2 ≠ ws) mine)
        then <[u := filter (λ kv : string * WebSocket, kv.2 ≠ ws) mine]> (user_sessions s)
        else delete u (user_sessions s)
    | None => user_sessions s
    end.
Proof.
  unfold drop_sessions. destruct (user_sessions s !! u); [|done].
  cbv zeta. by destruct (dict_truthy _).
Qed.

Lemma dict_truthy_true `{Countable K} {V} (d : gmap K V) :
  dict_truthy d = true ↔ d ≠ ∅.
Proof.
  unfold dict_truthy. rewrite negb_true_iff. apply bool_decide_eq_false.
Qed.

Lemma new_manager_sessions_sound : sessions_sound new_manager.
Proof. split; cbn; intros *; rewrite lookup_empty; done. Qed.

Lemma after_connect_sessions_sound env u ws sid s :
  sessions_sound s → sessions_sound (after_connect env u ws sid s).
Proof.
  intros [Hne Hreg].
  assert (∀ v mine k ws',
            user_sessions s !! v = Some mine → mine !! k = Some ws' →
            ∃ l, connections (after_connect env u ws sid s) !! v = Some l ∧ ws' ∈ l)
    as Hold.
  { intros v mine k ws' Hv Hk. destruct (Hreg v mine k ws' Hv Hk) as (l & Hl & Hin).
    rewrite after_connect_connections. destruct (decide (u = v)) as [->|Hneq].
    - rewrite lookup_insert_eq, Hl. cbn. eexists. split; [done|].
      apply elem_of_app. by left.
    - rewrite lookup_insert_ne by done. eauto. }
  split.
  - intros v mine. rewrite after_connect_user_sessions.
    destruct sid as [k|]; [|apply Hne].
    case_bool_decide; [apply Hne|].
    destruct (decide (u = v)) as [->|Hneq].
    + rewrite lookup_insert_eq. intros [= <-]. apply insert_non_empty.
    + rewrite lookup_insert_ne by done. apply Hne.
  - intros v mine k' ws'. rewrite after_connect_user_sessions.
    destruct sid as [k|]; [|apply Hold].
    case_bool_decide; [apply Hold|].
    destruct (decide (u = v)) as [->|Hneq].
    + rewrite lookup_insert_eq. intros [= <-].
      destruct (decide (k = k')) as [->|Hk].
      * rewrite lookup_insert_eq. intros [= <-].
        rewrite after_connect_connections, lookup_insert_eq.
        eexists. split; [done|]. apply elem_of_app. right. left.
      * rewrite lookup_insert_ne by done.
        destruct (user_sessions s !! v) as [mine|] eqn:Ev; cbn.
        -- by apply Hold.
        -- by rewrite lookup_empty.
    + rewrite lookup_insert_ne by done. apply Hold.
Qed.

Lemma after_disconnect_sessions_sound u ws s :
  sessions_sound s → sessions_sound (after_disconnect u ws s).
Proof.
  intros [Hne Hreg]. split.
  - intros v mine. rewrite after_disconnect_user_sessions, drop_sessions_user_sessions.
    destruct (user_sessions s !! u) as [mine0|] eqn:Eu; [|apply Hne].
    destruct (dict_truthy _) eqn:Et.
    + destruct (decide (u = v)) as [->|Hneq].
      * rewrite lookup_insert_eq. intros [= <-]. by apply dict_truthy_true.
      * rewrite lookup_insert_ne by done. apply Hne.
    + destruct (decide (u = v)) as [->|Hneq].
      * by rewrite lookup_delete_eq.
      * rewrite lookup_delete_ne by done. apply Hne.
  - intros v mine k ws'.
    rewrite after_disconnect_user_sessions, after_disconnect_connections.
    destruct (decide (u = v)) as [->|Hneq].
    + rewrite drop_sessions_user_sessions.
      destruct (user_sessions s !! v) as [mine0|] eqn:Ev; [|by rewrite Ev].
      assert (mine !! k = Some ws' →
              mine = filter (λ kv : string * WebSocket, kv.2 ≠ ws) mine0 →
              ∃ l, connections (drop_socket v ws s) !! v = Some l ∧ ws' ∈ l) as Hkept.
      { intros Hk ->. apply map_lookup_filter_Some in Hk as [Hk Hdiff]. cbn in Hdiff.
        destruct (Hreg v mine0 k ws' Ev Hk) as (l & Hl & Hin).
        unfold drop_socket. rewrite Hl. case_bool_decide as Hws; [|eauto].
        assert (ws' ∈ remove_first ws l) as Hin'
          by (apply elem_of_remove_first_ne; [congruence | done]).
        destruct (remove_first ws l) as [|y r] eqn:Er; [by apply elem_of_nil in Hin'|].
        cbn. rewrite lookup_insert_eq. eauto. }
      destruct (dict_truthy _).
      * rewrite lookup_insert_eq. intros [= <-] Hk. by apply Hkept.
      * by rewrite lookup_delete_eq.
    + rewrite drop_sessions_other by done.
      intros Hv Hk. destruct (Hreg v mine k ws' Hv Hk) as (l & Hl & Hin).
      exists l. split; [|done].
      by rewrite (proj1 (drop_socket_other u v ws s Hneq)).
Qed.

Lemma keeps_run_call_of (P : ConnectionManager → Prop) :
  P new_manager →
  (∀ env u ws sid s, P s → P (after_connect env u ws sid s)) →
  (∀ u ws s, P s → P (after_disconnect u ws s)) →
  (∀ k a s, P s → P (after_add_session_watcher k a s)) →
  (∀ k a s, P s → P (after_remove_session_watcher k a s)) →
  ∀ env c, keeps P (run_call env c).
Proof.
  intros Hnew Hconnect Hdisconnect Hadd Hremove env c.
  assert (∀ u m, keeps P (send_to_user env u m)) as Hsend.
  { intros u m w o w'. rewrite send_to_user_run. intros [= <- <-] Hw.
    apply after_send_to_user_ind; [done|]. intros ws s. apply Hdisconnect. }
  assert (∀ m (us : list Z),
            keeps P (gather (map (λ u, send_to_user env u m) us))) as Hgather.
  { intros m us. unfold gather.
    induction us as [|u us IH]; cbn [map for_each].
    - apply keeps_ret.
    - apply keeps_bind; [|intros _; apply IH].
      apply keeps_try_except; [apply Hsend|]. intros _. apply keeps_ret. }
  destruct c; cbn [run_call].
  - intros w o w'. rewrite connect_run. intros [= <- <-]. apply Hconnect.
  - intros w o w'. rewrite disconnect_run. intros [= <- <-]. apply Hdisconnect.
  - apply Hsend.
  - unfold send_to_session.
    apply keeps_bind.
    { intros w o w'. rewrite _get_session_user_id_run. by intros [= <- <-]. }
    intros [owner|]; [|apply keeps_ret].
    case_bool_decide; [apply keeps_ret|].
    apply keeps_bind; [apply keeps_when, Hsend|]. intros _.
    apply keeps_bind; [apply keeps_get_self|]. intros self.
    apply keeps_when. apply keeps_bind; [apply keeps_getitem|]. intros watchers.
    apply keeps_for_each_watcher. intros a. apply keeps_when, Hsend.
  - unfold broadcast_to_role. apply keeps_bind; [apply keeps_get_self|]. intros self.
    apply Hgather.
  - unfold broadcast_all. apply keeps_bind; [apply keeps_get_self|]. intros self.
    apply Hgather.
  - intros w o w'. rewrite add_session_watcher_run. intros [= <- <-]. apply Hadd.
  - intros w o w'. rewrite remove_session_watcher_run. intros [= <- <-]. apply Hremove.
  - intros w o w'. destruct (disconnect_all_run env w) as [tr ->].
    by intros [= <- <-] _.
Qed.

Lemma reachable_sessions_sound w : reachable w → sessions_sound (hub w).
Proof.
  induction 1 as [|env c w o w' _ IH Hrun].
  - apply new_manager_sessions_sound.
  - eapply (keeps_run_call_of sessions_sound); [..|exact Hrun|exact IH].
    + apply new_manager_sessions_sound.
    + apply after_connect_sessions_sound.
    + apply after_disconnect_sessions_sound.
    + intros k a s [Hne Hreg]. unfold after_add_session_watcher.
      destruct (session_watchers s !! k); [case_bool_decide|]; by split.
    + intros k a s [Hne Hreg]. unfold after_remove_session_watcher.
      destruct (session_watchers s !! k); [destruct (strip_watcher a _)|]; by split.
Qed.

(** X5. In every state the hub reaches, the session index holds no empty
    dictionary, every socket it holds for a user is registered for that user,
    and a user that is offline has no session index. *)
Theorem session_index_sound w :
  reachable w →
  (∀ u mine, user_sessions (hub w) !! u = Some mine → mine ≠ ∅) ∧
  (∀ u mine k ws,
     user_sessions (hub w) !! u = Some mine → mine !! k = Some ws →
     ∃ l, connections (hub w) !! u = Some l ∧ ws ∈ l) ∧
  (∀ u, is_user_online (hub w) u = false → user_sessions (hub w) !! u = None).
Proof.
  intros [Hne Hreg]%reachable_sessions_sound. split; [done|]. split; [done|].
  intros u Hoff. destruct (user_sessions (hub w) !! u) as [mine|] eqn:Eu; [|done].
  exfalso. destruct (map_choose mine (Hne u mine Eu)) as (k & ws & Hk).
  destruct (Hreg u mine k ws Eu Hk) as (l & Hl & _).
  unfold is_user_online in Hoff. by rewrite (contains_true _ _ _ Hl) in Hoff.
Qed.

(** ** Round trips *)
Lemma manager_ext (s s' : ConnectionManager) :
  connections s = connections s' → user_sessions s = user_sessions s' →
  session_watchers s = session_watchers s' → user_roles s = user_roles s' →
  s = s'.
Proof. destruct s, s'; cbn. by intros -> -> -> ->. Qed.

Lemma remove_first_app_fresh `{EqDecision A} (x : A) l :
  x ∉ l → remove_first x (l ++ [x]) = l.
Proof.
  induction l as [|y l IH]; intros Hn; cbn [app remove_first].
  - by rewrite decide_True.
  - apply not_elem_of_cons in Hn as [Hxy Hn].
    rewrite decide_False by congruence. f_equal. by apply IH.
Qed.

Lemma after_connect_user_roles env u ws sid s :
  user_roles (after_connect env u ws sid s)
  = match connections s !! u with
    | Some _ => user_roles s
    | None => <[u := fallback_role env u]> (user_roles s)
    end.
Proof.
  unfold after_connect. cbv zeta.
  destruct (connections s !! u); destruct sid as [k|];
    try destruct (bool_decide (k = EmptyString)); done.
Qed.

Lemma after_connect_session_watchers env u ws sid s :
  session_watchers (after_connect env u ws sid s) = session_watchers s.
Proof.
  unfold after_connect. cbv zeta.
  destruct (connections s !! u); destruct sid as [k|];
    try destruct (bool_decide (k = EmptyString)); done.
Qed.

Lemma after_disconnect_session_watchers u ws s :
  session_watchers (after_disconnect u ws s)
  = omap (strip_watcher u) (session_watchers s).
Proof.
  unfold after_disconnect. cbn. by rewrite drop_socket_sessions_watchers.
Qed.

Lemma strip_nobody u (sw : gmap string (list Z)) :
  (∀ k l, sw !! k = Some l → u ∉ l) → omap (strip_watcher u) sw = sw.
Proof.
  intros Hno. apply map_eq. intros k. rewrite lookup_omap.
  destruct (sw !! k) as [l|] eqn:Ek; [|done]. cbn.
  apply strip_watcher_other. by eapply Hno.
Qed.

Lemma drop_socket_last_fresh u ws s l0 :
  connections s !! u = Some (l0 ++ [ws]) → ws ∉ l0 →
  connections (drop_socket u ws s)
  = (if list_truthy l0 then <[u := l0]> (connections s)
     else delete u (connections s)) ∧
  user_roles (drop_socket u ws s)
  = (if list_truthy l0 then user_roles s else delete u (user_roles s)).
Proof.
  intros Hl Hfresh. unfold drop_socket. rewrite Hl.
  rewrite bool_decide_eq_true_2 by (apply elem_of_app; right; left).
  rewrite remove_first_app_fresh by done. by destruct l0.
Qed.

(** X6. In a state the hub reaches, registering a socket that is new for the
    user, under no session or under a session the user has not indexed, and
    unregistering it again restores the state exactly, if the user watches no
    session. *)
Theorem connect_then_disconnect env u ws sid w :
  reachable w →
  ws ∉ default [] (connections (hub w) !! u) →
  match sid with
  | Some k => user_sessions (hub w) !! u ≫= (λ mine, mine !! k) = None
  | None => True
  end →
  (∀ k, u ∉ get_session_watchers (hub w) k) →
  ∃ w1, connect env u ws sid w = (Return tt, w1) ∧
        disconnect u ws w1 = (Return tt, w).
Proof.
  intros Hreach Hfresh Hsid Hwatch.
  pose proof (reachable_consistent w Hreach) as [Hc Hr _ _].
  pose proof (reachable_sessions_sound w Hreach) as [Hne Hreg].
  eexists. split; [apply connect_run|]. rewrite disconnect_run. cbn [hub wire].
  rewrite <-(world_eta w) at 3. f_equal. f_equal.
  set (s := hub w) in *. set (l0 := default [] (connections s !! u)) in *.
  set (s1 := after_connect env u ws sid s).
  assert (connections s1 !! u = Some (l0 ++ [ws])) as Hl1.
  { unfold s1. by rewrite after_connect_connections, lookup_insert_eq. }
  destruct (drop_socket_last_fresh u ws s1 l0 Hl1 Hfresh) as [Hconn Hroles].
  (* no session entry of the user points to the new socket *)
  assert (∀ mine k v, user_sessions s !! u = Some mine → mine !! k = Some v → v ≠ ws)
    as Hother.
  { intros mine k v Hu Hk ->. destruct (Hreg u mine k ws Hu Hk) as (l & Hl & Hin).
    apply Hfresh. unfold l0. by rewrite Hl. }
  apply manager_ext.
  - rewrite after_disconnect_connections, Hconn.
    unfold s1. rewrite after_connect_connections. fold l0.
    destruct (connections s !! u) as [l|] eqn:El.
    + assert (l0 = l) as -> by done.
      assert (list_truthy l = true) as ->.
      { specialize (Hc u l El). by destruct l. }
      rewrite insert_insert_eq. by apply insert_id.
    + assert (l0 = []) as -> by done. cbn.
      rewrite delete_insert_eq. by apply delete_id.
  - rewrite after_disconnect_user_sessions, drop_sessions_user_sessions.
    unfold s1. rewrite after_connect_user_sessions.
    assert (∀ mine, user_sessions s !! u = Some mine →
              filter (λ kv : string * WebSocket, kv.2 ≠ ws) mine = mine) as Hsame.
    { intros mine Hu. apply map_filter_id. intros k v Hk. cbn. by eapply Hother. }
    assert (match user_sessions s !! u with
            | Some mine =>
                if dict_truthy (filter (λ kv : string * WebSocket, kv.2 ≠ ws) mine)
                then <[u := filter (λ kv : string * WebSocket, kv.2 ≠ ws) mine]>
                       (user_sessions s)
                else delete u (user_sessions s)
            | None => user_sessions s
            end = user_sessions s) as Hplain.
    { destruct (user_sessions s !! u) as [mine|] eqn:Eu; [|done].
      rewrite (Hsame mine eq_refl).
      rewrite (proj2 (dict_truthy_true mine)) by by eapply Hne.
      by apply insert_id. }
    destruct sid as [k|]; [|exact Hplain].
    case_bool_decide; [exact Hplain|].
    rewrite lookup_insert_eq.
    assert (filter (λ kv : string * WebSocket, kv.2 ≠ ws)
              (<[k := ws]> (default ∅ (user_sessions s !! u)))
            = default ∅ (user_sessions s !! u)) as ->.
    { rewrite map_filter_insert_False by (cbn; tauto).
      destruct (user_sessions s !! u) as [mine|] eqn:Eu; cbn in *.
      - rewrite (delete_id _ _ Hsid). by apply Hsame.
      - by rewrite delete_empty, map_filter_empty. }
    destruct (user_sessions s !! u) as [mine|] eqn:Eu; cbn.
    + rewrite (proj2 (dict_truthy_true mine)) by by eapply Hne.
      rewrite insert_insert_eq. by apply insert_id.
    + assert (dict_truthy (∅ : gmap string WebSocket) = false) as -> by done.
      rewrite delete_insert_eq. by apply delete_id.
  - rewrite after_disconnect_session_watchers.
    unfold s1. rewrite after_connect_session_watchers.
    apply strip_nobody. intros k l Hk. specialize (Hwatch k).
    unfold get_session_watchers in Hwatch. by rewrite Hk in Hwatch.
  - rewrite after_disconnect_user_roles, Hroles.
    unfold s1. rewrite after_connect_user_roles. 
    destruct (connections s !! u) as [l|] eqn:El.
    + assert (l0 = l) as -> by done.
      assert (list_truthy l = true) as ->; [|done].
      specialize (Hc u l El). by destruct l.
    + assert (l0 = []) as -> by done. cbn.
      rewrite delete_insert_eq. apply delete_id.
      destruct (user_roles s !! u) eqn:Er; [|done].
      assert (is_Some (connections s !! u)) as [? ?] by (apply Hr; eauto).
      congruence.
Qed.

(** X7. [connect] with a session id that is not empty maps that session to the
    new socket in the user's index, replacing an earlier socket of the same
    session and leaving the other sessions and the other users; with the
    empty string it behaves as with no session id, and then the index is
    unchanged. *)
Theorem connect_indexes_session env u ws w :
  (∀ k, k ≠ EmptyString →
     ∃ w', connect env u ws (Some k) w = (Return tt, w') ∧
           (∃ mine, user_sessions (hub w') !! u = Some mine ∧
                    mine !! k = Some ws ∧
                    ∀ k', k' ≠ k →
                          mine !! k' = user_sessions (hub w) !! u ≫= (λ m, m !! k')) ∧
           ∀ v, v ≠ u → user_sessions (hub w') !! v = user_sessions (hub w) !! v) ∧
  connect env u ws (Some EmptyString) w = connect env u ws None w ∧
  ∃ w', connect env u ws None w = (Return tt, w') ∧
        user_sessions (hub w') = user_sessions (hub w).
Proof.
  split; [|split].
  - intros k Hk. eexists. split; [apply connect_run|]. cbn [hub].
    rewrite after_connect_user_sessions, bool_decide_eq_false_2 by done.
    split.
    + eexists. split; [apply lookup_insert_eq|]. split; [apply lookup_insert_eq|].
      intros k' Hk'. rewrite lookup_insert_ne by done.
      destruct (user_sessions (hub w) !! u); [done | apply lookup_empty].
    + intros v Hv. by rewrite lookup_insert_ne.
  - by rewrite !connect_run.
  - eexists. split; [apply connect_run|]. cbn [hub].
    by rewrite after_connect_user_sessions.
Qed.

(** ** The reads *)
Lemma total_sockets_ge_size (conns : gmap Z (list WebSocket)) :
  (∀ u l, conns !! u = Some l → l ≠ []) → (size conns ≤ total_sockets conns)%nat.
Proof.
  induction conns as [|u l conns Hu IH] using map_ind; intros Hne.
  - by rewrite map_size_empty.
  - rewrite map_size_insert_None, total_sockets_fresh by done.
    assert (l ≠ []) as Hl by (apply (Hne u); apply lookup_insert_eq).
    assert (size conns ≤ total_sockets conns)%nat as Hrest.
    { apply IH. intros v l' Hv. apply (Hne v).
      rewrite lookup_insert_ne; [done|]. intros ->. congruence. }
    destruct l; [done|]. cbn. lia.
Qed.

(** X8. In every state the hub reaches the reads agree: [get_online_users]
    lists each online user once, exactly the users for which [is_user_online]
    holds; [get_online_users_count] is its length and at most
    [get_connection_count]; and no connection is counted exactly when no user
    is listed. *)
Theorem online_reads_agree w :
  reachable w →
  NoDup (get_online_users (hub w)) ∧
  (∀ u, u ∈ get_online_users (hub w) ↔ is_user_online (hub w) u = true) ∧
  get_online_users_count (hub w) = length (get_online_users (hub w)) ∧
  (get_online_users_count (hub w) ≤ get_connection_count (hub w))%nat ∧
  (get_connection_count (hub w) = 0%nat ↔ get_online_users (hub w) = []).
Proof.
  intros [Hc _ _ _]%reachable_consistent.
  assert (get_online_users_count (hub w) = length (get_online_users (hub w))) as Hlen.
  { unfold get_online_users_count, get_online_users.
    by rewrite length_fmap, length_map_to_list. }
  pose proof (total_sockets_ge_size (connections (hub w)) Hc) as Hge.
  split; [apply NoDup_fst_map_to_list|]. split; [|split; [done|split]].
  - intros u. unfold get_online_users, is_user_online, contains.
    rewrite bool_decide_eq_true, list_elem_of_fmap. split.
    + intros [[u' l] [-> Hin]]. apply elem_of_map_to_list in Hin. cbn. eauto.
    + intros [l Hl]. exists (u, l). split; [done|]. by apply elem_of_map_to_list.
  - exact Hge.
  - unfold get_connection_count. fold (total_sockets (connections (hub w))). split.
    + intros Hzero. apply length_zero_iff_nil. rewrite <-Hlen.
      unfold get_online_users_count. lia.
    + intros Hnone. apply (f_equal length) in Hnone. rewrite <-Hlen in Hnone.
      unfold get_online_users_count in Hnone. cbn in Hnone.
      apply map_size_empty_iff in Hnone. rewrite Hnone. done.
Qed.

(** X9. Adding a watcher that does not yet watch the session appends it to the
    session's list, and removing it again restores the state exactly (the
    session has no empty list to start with). *)
Theorem watch_then_unwatch k a w :
  a ∉ get_session_watchers (hub w) k →
  session_watchers (hub w) !! k ≠ Some [] →
  ∃ w1, add_session_watcher k a w = (Return tt, w1) ∧
        get_session_watchers (hub w1) k = get_session_watchers (hub w) k ++ [a] ∧
        remove_session_watcher k a w1 = (Return tt, w).
Proof.
  intros Hnew Hne. eexists. split; [apply add_session_watcher_run|].
  rewrite remove_session_watcher_run. cbn [hub wire].
  unfold get_session_watchers in *.
  unfold after_remove_session_watcher, after_add_session_watcher.
  destruct (session_watchers (hub w) !! k) as [l|] eqn:Ek; cbn in Hnew.
  - rewrite bool_decide_eq_false_2 by done. cbn. rewrite lookup_insert_eq.
    split; [done|]. unfold strip_watcher.
    rewrite bool_decide_eq_true_2 by (apply elem_of_app; right; left).
    rewrite remove_first_app_fresh by done.
    destruct l as [|x l]; [done|]. cbn.
    rewrite insert_insert_eq, (insert_id _ _ _ Ek).
    unfold set_session_watchers.
    cbn [connections user_sessions session_watchers user_roles].
    rewrite ?insert_insert_eq, ?(insert_id _ _ _ Ek), ?delete_insert_eq, ?(delete_id _ _ Ek).
    by rewrite manager_eta, world_eta.
  - cbn. rewrite lookup_insert_eq. split; [done|]. unfold strip_watcher.
    rewrite bool_decide_eq_true_2 by left. cbn. rewrite decide_True by done.
    cbn. rewrite delete_insert_eq, (delete_id _ _ Ek).
    unfold set_session_watchers.
    cbn [connections user_sessions session_watchers user_roles].
    rewrite ?insert_insert_eq, ?(insert_id _ _ _ Ek), ?delete_insert_eq, ?(delete_id _ _ Ek).
    by rewrite manager_eta, world_eta.
Qed.

(** ** Broadcasts *)
Lemma send_to_user_trace env u m w :
  ∃ oks,
    length oks = length (default [] (connections (hub w) !! u)) ∧
    wire (after_send_to_user env u m w)
    = wire w ++ send_events m (default [] (connections (hub w) !! u)) oks.
Proof.
  unfold after_send_to_user.
  destruct (connections (hub w) !! u) as [l|]; cbn [default].
  - destruct (send_all_shape env m l [] (wire w)) as (oks & Hlen & Hall).
    exists oks. split; [done|]. by rewrite Hall.
  - exists []. split; [done|]. cbn. by rewrite app_nil_r.
Qed.

Lemma after_send_to_user_untouched env u v m w :
  u ≠ v → untouched v (hub w) (hub (after_send_to_user env u m w)).
Proof.
  intros Hne.
  apply (after_send_to_user_ind (untouched v (hub w))); [apply untouched_refl|].
  intros ws s Hs. eapply untouched_trans; [exact Hs|].
  by apply after_disconnect_untouched.
Qed.

Lemma sockets_of_untouched s s' (us : list Z) :
  (∀ v, v ∈ us → connections s' !! v = connections s !! v) →
  sockets_of s' us = sockets_of s us.
Proof.
  intros Hsame. unfold sockets_of. f_equal. apply map_ext_in.
  intros v Hv. rewrite Hsame; [done|]. by apply list_elem_of_In.
Qed.

Lemma gather_sends_trace env m (us : list Z) :
  NoDup us →
  ∀ w, ∃ w' oks,
    gather (map (λ u, send_to_user env u m) us) w = (Return tt, w') ∧
    length oks = length (sockets_of (hub w) us) ∧
    wire w' = wire w ++ send_events m (sockets_of (hub w) us) oks ∧
    ∀ v, v ∉ us → untouched v (hub w) (hub w').
Proof.
  unfold gather. induction 1 as [|u us Hu Hnd IH]; intros w; cbn [map for_each].
  - exists w, []. split; [done|]. split; [done|]. split.
    + cbn. by rewrite app_nil_r.
    + intros v _. apply untouched_refl.
  - destruct (send_to_user_trace env u m w) as (oks1 & Hlen1 & Hwire1).
    set (w1 := after_send_to_user env u m w) in *.
    destruct (IH w1) as (w' & oks2 & Hrun & Hlen2 & Hwire2 & Hframe).
    assert (sockets_of (hub w1) us = sockets_of (hub w) us) as Hsame.
    { apply sockets_of_untouched. intros v Hv.
      apply (after_send_to_user_untouched env u v m w). by intros ->. }
    rewrite Hsame in Hlen2, Hwire2.
    exists w', (oks1 ++ oks2). split; [|split; [|split]].
    + erewrite bind_run; [exact Hrun|].
      unfold try_except. by rewrite send_to_user_run.
    + unfold sockets_of in *. cbn [map concat]. rewrite !length_app. lia.
    + rewrite Hwire2, Hwire1. unfold sockets_of, send_events. cbn [map concat].
      rewrite zip_with_app by done. by rewrite <-(assoc_L (++)).
    + intros v Hv. apply not_elem_of_cons in Hv as [Hvu Hv].
      eapply untouched_trans; [|by apply Hframe].
      apply after_send_to_user_untouched. congruence.
Qed.

Lemma sockets_of_keys (conns : gmap Z (list WebSocket)) (items : list (Z * list WebSocket)) :
  (∀ k l, (k, l) ∈ items → conns !! k = Some l) →
  map (λ u, default [] (conns !! u)) items.*1 = items.*2.
Proof.
  induction items as [|[k l] items IH]; intros Hin; [done|].
  cbn. rewrite (Hin k l) by left. cbn. f_equal. apply IH.
  intros k' l' Hin'. apply Hin. by right.
Qed.

Lemma all_sockets_are_keys_sockets s :
  sockets_of s (broadcast_all_targets s) = all_sockets s.
Proof.
  unfold sockets_of, broadcast_all_targets, all_sockets. f_equal.
  apply sockets_of_keys. intros k l. apply elem_of_map_to_list.
Qed.

(** Two dictionaries with the same keys are iterated in the same order. *)
Lemma same_keys_same_order {A B} (m1 : gmap Z A) (m2 : gmap Z B) :
  (∀ u, is_Some (m1 !! u) ↔ is_Some (m2 !! u)) →
  (map_to_list m1).*1 = (map_to_list m2).*1.
Proof.
  intros Hdom.
  assert ((λ _, tt) <$> m1 = (λ _, tt) <$> m2) as Heq.
  { apply map_eq. intros u. rewrite !lookup_fmap.
    destruct (m1 !! u) as [a|] eqn:E1, (m2 !! u) as [b|] eqn:E2; cbn; try done.
    - assert (is_Some (m2 !! u)) as [? ?] by (apply Hdom; rewrite E1; eauto). congruence.
    - assert (is_Some (m1 !! u)) as [? ?] by (apply Hdom; rewrite E2; eauto). congruence. }
  apply (f_equal (λ m, (map_to_list m).*1)) in Heq. cbv beta in Heq.
  rewrite !map_to_list_fmap in Heq.
  rewrite <-!list_fmap_compose in Heq. exact Heq.
Qed.

Lemma role_all_targets_everyone (s : ConnectionManager) :
  (∀ u, is_Some (user_roles s !! u) ↔ is_Some (connections s !! u)) →
  broadcast_to_role_targets "all" s = broadcast_all_targets s.
Proof.
  intros Hr. unfold broadcast_to_role_targets, broadcast_all_targets.
  rewrite filter_keeps_all by (intros; by right).
  by apply same_keys_same_order.
Qed.

(** C5.  Where the role cache has the keys of [connections]:
    [broadcast_all] does exactly what [broadcast_to_role] with the role
    [all] does.  For every role, [broadcast_to_role] returns after running
    one [send_to_user] task for each user of a list without repetition that
    holds exactly the connected users whose cached role is the role (every
    connected user, for [all]): it sends the message once to each of their
    sockets, writes nothing else and leaves the other users as they were.
    The target lists of the two methods hold the same users. *)
Theorem broadcast_all_is_role_all env m w :
  (∀ u, is_Some (user_roles (hub w) !! u) ↔ is_Some (connections (hub w) !! u)) →
  broadcast_all env m w = broadcast_to_role env "all" m w ∧
  (∀ role, ∃ us w' evs oks,
     NoDup us ∧
     (∀ u, u ∈ us ↔ is_user_online (hub w) u = true ∧
                     (role = "all" ∨ user_roles (hub w) !! u = Some role)) ∧
     broadcast_to_role env role m w
     = gather (map (λ u, send_to_user env u m) us) w ∧
     broadcast_to_role env role m w = (Return tt, w') ∧
     wire w' = wire w ++ evs ∧
     length oks = length (sockets_of (hub w) us) ∧
     evs ≡ₚ send_events m (sockets_of (hub w) us) oks ∧
     ∀ v, v ∉ us → untouched v (hub w) (hub w')) ∧
  (∀ u, u ∈ broadcast_all_targets (hub w)
        ↔ u ∈ broadcast_to_role_targets "all" (hub w)) ∧
  (∀ u, u ∈ broadcast_all_targets (hub w) ↔ is_user_online (hub w) u = true) ∧
  (∀ role u, role ≠ "all" →
     u ∈ broadcast_to_role_targets role (hub w)
     ↔ is_user_online (hub w) u = true ∧ user_roles (hub w) !! u = Some role) ∧
  NoDup (broadcast_all_targets (hub w)) ∧
  (∀ role, NoDup (broadcast_to_role_targets role (hub w))).
Proof.
  intros Hr.
  destruct (broadcast_target_lists (hub w) Hr) as (Hsame & Honline & Hrole & Hnd & Hnds).
  split; [|split; [|done]].
  - unfold broadcast_all, broadcast_to_role.
    erewrite !bind_run by reflexivity.
    by rewrite role_all_targets_everyone.
  - intros role.
    destruct (gather_sends_trace env m _ (Hnds role) w)
      as (w' & oks & Hrun & Hlen & Hwire & Hframe).
    assert (broadcast_to_role env role m w
            = gather (map (λ u, send_to_user env u m)
                        (broadcast_to_role_targets role (hub w))) w) as Hgather.
    { unfold broadcast_to_role. by erewrite bind_run. }
    exists (broadcast_to_role_targets role (hub w)), w',
      (send_events m (sockets_of (hub w) (broadcast_to_role_targets role (hub w))) oks),
      oks.
    split; [done|]. split; [|split; [done|split; [by rewrite Hgather|done]]].
    intros u. destruct (decide (role = "all")) as [->|Hne].
    + rewrite <-Hsame, Honline. split; [by auto|by intros [? _]].
    + rewrite (Hrole role u Hne). split.
      * intros [? ?]. auto.
      * intros [? [?|?]]; done.
Qed.

Lemma broadcast_all_is_role_all_witness :
  broadcast_all quiet_env [] two_tabs_watching
  = broadcast_to_role quiet_env "all" [] two_tabs_watching ∧
  ∃ us w' evs oks,
    (∀ u, u ∈ us ↔ is_user_online (hub two_tabs_watching) u = true ∧
                    ("admin" = "all" ∨
                     user_roles (hub two_tabs_watching) !! u = Some "admin")) ∧
    broadcast_to_role quiet_env "admin" [] two_tabs_watching = (Return tt, w') ∧
    wire w' = wire two_tabs_watching ++ evs ∧
    evs ≡ₚ send_events [] (sockets_of (hub two_tabs_watching) us) oks.
Proof.
  assert (∀ u, is_Some (user_roles (hub two_tabs_watching) !! u)
               ↔ is_Some (connections (hub two_tabs_watching) !! u)) as Hcached.
  { intros u. destruct (decide (u = 1)) as [->|Hne].
    - split; intros _; vm_compute; eauto.
    - cbn. by rewrite !lookup_singleton_ne. }
  destruct (broadcast_all_is_role_all quiet_env [] two_tabs_watching Hcached)
    as (Hsame & Hrole & _).
  split; [exact Hsame|].
  destruct (Hrole "admin") as (us & w' & evs & oks & _ & Hin & _ & Hrun & Hwire & _ & Hevs & _).
  by exists us, w', evs, oks.
Defined.

(** X10. [broadcast_all] always returns and sends the message exactly once to
    every registered socket and writes nothing else: [get_connection_count]
    sends in all, also when sends fail and sockets are reaped on the way. *)
Theorem broadcast_all_reaches_every_socket env m w :
  ∃ w' evs oks,
    broadcast_all env m w = (Return tt, w') ∧
    wire w' = wire w ++ evs ∧
    length oks = get_connection_count (hub w) ∧
    evs ≡ₚ send_events m (all_sockets (hub w)) oks.
Proof.
  destruct (gather_sends_trace env m (broadcast_all_targets (hub w))
              (NoDup_fst_map_to_list _) w) as (w' & oks & Hrun & Hlen & Hwire & _).
  rewrite all_sockets_are_keys_sockets in Hlen, Hwire.
  rewrite all_sockets_length in Hlen.
  exists w', (send_events m (all_sockets (hub w)) oks), oks.
  split; [|done].
  unfold broadcast_all. by erewrite bind_run.
Qed.

(** X11. [broadcast_to_role] always returns and sends the message exactly once
    to every socket of the users whose cached role is the role (of every user
    with a cached role, for [all]), and writes nothing else; a user that is
    not a target is left as it was. *)
Theorem broadcast_to_role_reaches_targets env role m w :
  ∃ w' evs oks,
    broadcast_to_role env role m w = (Return tt, w') ∧
    wire w' = wire w ++ evs ∧
    length oks
    = length (sockets_of (hub w) (broadcast_to_role_targets role (hub w))) ∧
    evs ≡ₚ send_events m
             (sockets_of (hub w) (broadcast_to_role_targets role (hub w))) oks ∧
    ∀ v, v ∉ broadcast_to_role_targets role (hub w) →
         untouched v (hub w) (hub w').
Proof.
  assert (NoDup (broadcast_to_role_targets role (hub w))) as Hnd.
  { unfold broadcast_to_role_targets. apply NoDup_fmap_fst.
    - intros k v1 v2 H1 H2. apply list_elem_of_filter in H1 as [_ H1], H2 as [_ H2].
      apply elem_of_map_to_list in H1, H2. congruence.
    - apply NoDup_filter, NoDup_map_to_list. }
  destruct (gather_sends_trace env m _ Hnd w) as (w' & oks & Hrun & Hlen & Hwire & Hfr).
  exists w', (send_events m
                (sockets_of (hub w) (broadcast_to_role_targets role (hub w))) oks), oks.
  split; [|done].
  unfold broadcast_to_role. by erewrite bind_run.
Qed.

(** ** Two watchers and a dead socket *)
Lemma for_each_watcher_unfold fuel sid i body :
  for_each_watcher (S fuel) sid i body
  = (let* self := get_self in
     match default [] (session_watchers self !! sid) !! i with
     | None => ret tt
     | Some admin_id => body admin_id ;;; for_each_watcher fuel sid (S i) body
     end).
Proof. reflexivity. Qed.

Lemma failed_send_iff m (l : list WebSocket) :
  ∀ oks, (∃ ws, SendJson ws m false ∈ send_events m l oks)
         ↔ sockets_with false l oks ≠ [].
Proof.
  unfold send_events, sockets_with.
  induction l as [|x l IH]; intros [|ok oks]; cbn [zip zip_with].
  - split; [by intros [ws ?%elem_of_nil] | done].
  - split; [by intros [ws ?%elem_of_nil] | done].
  - split; [by intros [ws ?%elem_of_nil] | done].
  - destruct ok.
    + rewrite filter_cons_False by done. rewrite <-IH. split.
      * intros [ws [Heq|Hin]%elem_of_cons]; [done | eauto].
      * intros [ws Hin]. exists ws. by right.
    + rewrite filter_cons_True by done. split; [done|].
      intros _. exists x. left.
Qed.

Lemma reaped_watcher_gone env B C m w sid :
  B ≠ C →
  session_watchers (hub w) !! sid = Some [B; C] →
  ((∃ ws, SendJson ws m false
          ∈ drop (length (wire w)) (wire (after_send_to_user env B m w))) →
   session_watchers (hub (after_send_to_user env B m w)) !! sid = Some [C]) ∧
  (¬ (∃ ws, SendJson ws m false
            ∈ drop (length (wire w)) (wire (after_send_to_user env B m w))) →
   session_watchers (hub (after_send_to_user env B m w)) !! sid = Some [B; C]).
Proof.
  intros HBC Hsw. unfold after_send_to_user.
  destruct (connections (hub w) !! B) as [l|].
  - destruct (send_all_shape env m l [] (wire w)) as (oks & Hlen & Hall).
    rewrite Hall. cbn [fst snd hub wire app].
    rewrite drop_app_length. rewrite failed_send_iff.
    destruct (sockets_with false l oks) as [|x dead].
    + split; [done|]. by intros _.
    + split; [|by intros []]. intros _. cbn [foldl].
      assert (session_watchers (after_disconnect B x (hub w)) !! sid = Some [C]) as H1.
      { rewrite after_disconnect_watchers, Hsw. cbn. unfold strip_watcher.
        rewrite bool_decide_eq_true_2 by left. cbn. by rewrite decide_True. }
      clear Hall. revert H1. generalize (after_disconnect B x (hub w)).
      induction dead as [|y dead IH]; intros s Hs; [done|].
      cbn [foldl]. apply IH. cbv beta. rewrite after_disconnect_watchers, Hs. cbn.
      apply strip_watcher_other. by intros ?%list_elem_of_singleton.
  - cbn. rewrite drop_all. split; [by intros [ws ?%elem_of_nil] | done].
Qed.

(** X12. [send_to_session] with no excluded user, on a session whose owner is
    not 0 and whose watchers are [B] then [C], sends to the owner and to [B].
    When a send to [B] fails, unregistering that socket takes [B] out of the
    list the loop is iterating: the call ends there, [C] is sent nothing and
    is left as the only watcher.  When no send to [B] fails, the call goes on
    with the send to [C]. *)
Theorem second_watcher_skipped_after_reaping env w sid m A B C :
  select_session_user env sid = Row (Some A) → A ≠ 0 →
  A ≠ B → A ≠ C → B ≠ C →
  session_watchers (hub w) !! sid = Some [B; C] →
  ∃ w1 w2,
    send_to_user env A m w = (Return tt, w1) ∧
    send_to_user env B m w1 = (Return tt, w2) ∧
    ((∃ ws, SendJson ws m false ∈ drop (length (wire w1)) (wire w2)) →
     send_to_session env sid m None w = (Return tt, w2) ∧
     get_session_watchers (hub w2) sid = [C]) ∧
    (¬ (∃ ws, SendJson ws m false ∈ drop (length (wire w1)) (wire w2)) →
     send_to_session env sid m None w = send_to_user env C m w2).
Proof.
  intros Hrow HA0 HAB HAC HBC Hsw.
  set (w1 := after_send_to_user env A m w).
  set (w2 := after_send_to_user env B m w1).
  exists w1, w2. split; [apply send_to_user_run|]. split; [apply send_to_user_run|].
  assert (session_watchers (hub w1) !! sid = Some [B; C]) as Hsw1.
  { apply (after_send_to_user_watchers (λ o, o = Some [B; C])); [done|].
    intros o ->. cbn. apply strip_watcher_other. intros Hin.
    repeat (apply elem_of_cons in Hin as [?|Hin]; [done|]).
    by apply elem_of_nil in Hin. }
  destruct (reaped_watcher_gone env B C m w1 sid HBC Hsw1) as [Hgone Hstays].
  fold w2 in Hgone, Hstays.
  assert (send_to_session env sid m None w
          = for_each_watcher 1 sid 1
              (λ admin_id, when (bool_decide (Some admin_id ≠ None))
                             (send_to_user env admin_id m)) w2) as Hloop.
  { unfold send_to_session.
    erewrite bind_run; [|apply _get_session_user_id_run].
    rewrite Hrow. cbv beta iota.
    rewrite bool_decide_eq_false_2 by done.
    rewrite (bool_decide_eq_true_2 (Some A ≠ None)) by done. cbn [when].
    erewrite bind_run; [|apply send_to_user_run]. fold w1.
    erewrite bind_run; [|reflexivity].
    rewrite (contains_true _ _ _ Hsw1). cbn [when].
    erewrite bind_run; [|by unfold getitem; rewrite Hsw1].
    cbn [length]. rewrite (for_each_watcher_unfold 1).
    erewrite bind_run; [|reflexivity]. cbv beta.
    rewrite (live_watcher _ _ _ _ Hsw1). change ([B; C] !! 0%nat) with (Some B).
    cbv beta iota.
    rewrite (bool_decide_eq_true_2 (Some B ≠ None)) by done. cbn [when].
    erewrite bind_run; [|apply send_to_user_run]. by fold w2. }
  split.
  - intros Hfailed. specialize (Hgone Hfailed). split.
    + rewrite Hloop. cbn [for_each_watcher].
      erewrite bind_run; [|reflexivity]. cbv beta.
      by rewrite (live_watcher _ _ _ _ Hgone).
    + unfold get_session_watchers. by rewrite Hgone.
  - intros Hnone. specialize (Hstays Hnone).
    rewrite Hloop. cbn [for_each_watcher].
    erewrite bind_run; [|reflexivity]. cbv beta.
    rewrite (live_watcher _ _ _ _ Hstays). change ([B; C] !! 1%nat) with (Some C).
    cbv beta iota.
    rewrite (bool_decide_eq_true_2 (Some C ≠ None)) by done. cbn [when].
    rewrite send_to_user_run. erewrite bind_run; [|apply send_to_user_run].
    set (w3 := after_send_to_user env C m w2).
    assert (session_watchers (hub w3) !! sid = Some [B; C]
            ∨ session_watchers (hub w3) !! sid = Some [B]) as Hsw3.
    { apply (after_send_to_user_watchers
               (λ o, o = Some [B; C] ∨ o = Some [B])); [by left|].
      intros o [-> | ->]; cbn; unfold strip_watcher.
      - right. rewrite bool_decide_eq_true_2 by (right; left).
        cbn. rewrite decide_False by done. by rewrite decide_True.
      - right. rewrite bool_decide_eq_false_2; [done|].
        by intros ?%list_elem_of_singleton. }
    erewrite bind_run; [|reflexivity]. cbv beta.
    by destruct Hsw3 as [Hsw3 | Hsw3]; rewrite (live_watcher _ _ _ _ Hsw3).
Qed.

(** ** The presence table *)
Lemma update_presence_sound conn now u online t :
  table_sound t → table_sound (update_presence conn now u online t).
Proof.
  intros Ht. destruct conn as [|[e|]]; [done..|]. cbn. destruct online.
  - unfold upsert_connected. destruct (t !! u) as [r|] eqn:Er; intros v r'.
    + destruct (decide (u = v)) as [->|Hne].
      * rewrite lookup_insert_eq. intros [= <-]. left. cbn. split; [done|].
        destruct (Ht v r Er) as [[_ ?]|[_ ?]]; lia.
      * rewrite lookup_insert_ne by done. apply Ht.
    + destruct (decide (u = v)) as [->|Hne].
      * rewrite lookup_insert_eq. intros [= <-]. left. cbn. split; [done | lia].
      * rewrite lookup_insert_ne by done. apply Ht.
  - unfold update_disconnected. destruct (t !! u) as [r|] eqn:Er; [|done].
    intros v r'. destruct (decide (u = v)) as [->|Hne].
    + rewrite lookup_insert_eq. intros [= <-]. unfold row_sound.
      cbn [is_online connection_count].
      destruct (Ht v r Er) as [[_ ?]|[_ ?]]; case_decide; lia.
    + rewrite lookup_insert_ne by done. apply Ht.
Qed.

Lemma cleanup_sound conn cutoff t :
  table_sound t → table_sound (Presence.cleanup_stale_presence conn cutoff t).
Proof.
  intros Ht. destruct conn as [|[e|]]; [done..|]. cbn. intros u r'.
  rewrite lookup_fmap. destruct (t !! u) as [r|] eqn:Er; [|done]. cbn.
  intros [= <-]. destruct (Presence.stale cutoff r); [by right | by eapply Ht].
Qed.

(** X13. A presence table in which every row is either online with a positive
    count or offline with the count 0 stays so under [update_presence] and
    [cleanup_stale_presence], and a user that [is_user_online] reports online
    has a positive count. *)
Theorem presence_rows_stay_sound (t : gmap Z PresenceRow) :
  table_sound t →
  (∀ conn now u online, table_sound (update_presence conn now u online t)) ∧
  (∀ conn cutoff, table_sound (Presence.cleanup_stale_presence conn cutoff t)) ∧
  (∀ conn u r, t !! u = Some r →
               Presence.is_user_online conn u t = true → 0 < connection_count r).
Proof.
  intros Ht. split; [|split].
  - intros. by apply update_presence_sound.
  - intros. by apply cleanup_sound.
  - intros conn u r Hr. destruct conn as [|[e|]]; [done..|]. cbn. rewrite Hr.
    intros Hon%bool_decide_eq_true. destruct (Ht u r Hr) as [[_ ?]|[? _]]; lia.
Qed.

Lemma connects_count u (nows : list string) :
  ∀ t r, t !! u = Some r →
         ∃ r', presence_updates true u nows t !! u = Some r' ∧
               connection_count r' = connection_count r + Z.of_nat (length nows) ∧
               connected_at r' = connected_at r ∧
               (nows ≠ [] → is_online r' = 1 ∧ Some (last_seen r') = last nows).
Proof.
  unfold presence_updates.
  induction nows as [|now nows IH]; intros t r Hr.
  - exists r. cbn. split; [done|]. split; [lia|]. done.
  - cbn [foldl update_presence]. unfold upsert_connected at 2. rewrite Hr.
    edestruct IH as (r' & Hr' & Hcount & Hat & Hlast); [apply lookup_insert_eq|].
    exists r'. split; [exact Hr'|]. cbn in *. split; [lia|]. split; [done|].
    intros _. destruct nows as [|now' nows].
    + cbn in Hr'. rewrite lookup_insert_eq in Hr'. by injection Hr' as <-.
    + destruct Hlast as [? ?]; [done|]. done.
Qed.

Lemma disconnects_count u (nows : list string) :
  ∀ t r, t !! u = Some r → row_sound r →
         ∃ r', presence_updates false u nows t !! u = Some r' ∧
               connection_count r' = Z.max 0 (connection_count r - Z.of_nat (length nows)) ∧
               row_sound r' ∧ connected_at r' = connected_at r.
Proof.
  unfold presence_updates.
  induction nows as [|now nows IH]; intros t r Hr Hsound.
  - exists r. cbn. split; [done|]. split; [|done].
    destruct Hsound as [[_ ?]|[_ ?]]; lia.
  - cbn [foldl update_presence]. unfold update_disconnected at 2. rewrite Hr.
    set (r1 := mkPresenceRow (if decide (connection_count r - 1 ≤ 0) then 0 else 1)
                 now (connected_at r) (Z.max 0 (connection_count r - 1))).
    assert (row_sound r1) as Hs1.
    { unfold row_sound, r1. cbn [is_online connection_count].
      destruct Hsound as [[_ ?]|[_ ?]]; case_decide; lia. }
    destruct (IH (<[u := r1]> t) r1 (lookup_insert_eq t u r1) Hs1)
      as (r' & Hr' & Hcount & Hs' & Hat).
    exists r'. split; [exact Hr'|]. split; [|done].
    rewrite Hcount. unfold r1. cbn [connection_count length].
    destruct Hsound as [[_ ?]|[_ ?]]; lia.
Qed.

(** X14. For a user without a row a disconnect does nothing.  After [n] >= 1
    connects and then [k] disconnects the row counts [max 0 (n - k)]
    connections, keeps the time of the first connect as [connected_at], and
    [is_user_online] holds exactly when [k < n]. *)
Theorem presence_counts_connections u (t : gmap Z PresenceRow) first rest outs :
  t !! u = None →
  (∀ conn now, update_presence conn now u false t = t) ∧
  ∃ r, presence_updates false u outs (presence_updates true u (first :: rest) t) !! u
       = Some r ∧
       connection_count r
       = Z.max 0 (Z.of_nat (length (first :: rest)) - Z.of_nat (length outs)) ∧
       connected_at r = first ∧
       Presence.is_user_online (Db None) u
         (presence_updates false u outs (presence_updates true u (first :: rest) t))
       = bool_decide (length outs < length (first :: rest))%nat.
Proof.
  intros Hnew. split.
  { intros conn now. destruct conn as [|[e|]]; [done..|]. cbn.
    unfold update_disconnected. by rewrite Hnew. }
  set (t1 := update_presence (Db None) first u true t).
  assert (t1 !! u = Some (mkPresenceRow 1 first first 1)) as H1.
  { unfold t1. cbn. unfold upsert_connected. rewrite Hnew. apply lookup_insert_eq. }
  destruct (connects_count u rest t1 _ H1) as (r1 & Hr1 & Hc1 & Hat1 & Hon1).
  assert (row_sound r1) as Hs1.
  { left. split; [|cbn in Hc1; lia].
    destruct rest as [|now rest]; [|by apply Hon1].
    unfold presence_updates in Hr1. cbn [foldl] in Hr1.
    rewrite H1 in Hr1. by injection Hr1 as <-. }
  change (presence_updates true u (first :: rest) t)
    with (presence_updates true u rest t1).
  destruct (disconnects_count u outs _ r1 Hr1 Hs1) as (r & Hr & Hc & Hs & Hat).
  exists r. split; [exact Hr|]. cbn in Hc1.
  split; [rewrite Hc, Hc1; cbn [length]; lia|].
  split; [by rewrite Hat, Hat1|].
  cbn [Presence.is_user_online]. rewrite Hr.
  apply bool_decide_ext. cbn [length].
  destruct Hs as [[Hon Hpos]|[Hoff Hzero]]; [|rewrite Hoff]; split; intros; try done; lia.
Qed.

Lemma string_ltb_irrefl (s : string) : String.ltb s s = false.
Proof.
  unfold String.ltb. pose proof (String.compare_antisym s s) as H.
  by destruct (String.compare s s).
Qed.

Lemma sweep_lookup cutoff (t : gmap Z PresenceRow) u :
  Presence.cleanup_stale_presence (Db None) cutoff t !! u
  = (λ r, if String.ltb (last_seen r) cutoff && bool_decide (is_online r = 1)
          then mkPresenceRow 0 (last_seen r) (connected_at r) 0
          else r) <$> t !! u.
Proof. cbn [Presence.cleanup_stale_presence]. by rewrite lookup_fmap. Qed.

Lemma connected_row now u (t : gmap Z PresenceRow) :
  ∃ r, update_presence (Db None) now u true t !! u = Some r ∧
       is_online r = 1 ∧ last_seen r = now.
Proof.
  cbn [update_presence]. unfold upsert_connected.
  destruct (t !! u) as [r0|]; rewrite lookup_insert_eq; eauto.
Qed.

(** X15. [cleanup_stale_presence] on a working database: a row that is online
    and whose [last_seen] is, as text, before the cut-off gets the flag and
    the count 0 and keeps its timestamps, so that [is_user_online] no longer
    reports the user; a row that is offline, or whose [last_seen] is not
    before the cut-off (the cut-off itself included), is left; no row is
    created; a second sweep with the same cut-off changes nothing.  A user
    whose connect was recorded at a time not before the cut-off is not
    swept, one whose connect was recorded before it is.  Without a
    connection, or when the statement raises, the table is unchanged. *)
Theorem sweep_marks_stale_offline cutoff (t : gmap Z PresenceRow) u r :
  t !! u = Some r →
  let sweep := Presence.cleanup_stale_presence (Db None) cutoff in
  (is_online r = 1 → String.ltb (last_seen r) cutoff = true →
   sweep t !! u = Some (mkPresenceRow 0 (last_seen r) (connected_at r) 0) ∧
   Presence.is_user_online (Db None) u (sweep t) = false) ∧
  (is_online r ≠ 1 ∨ String.ltb (last_seen r) cutoff = false →
   sweep t !! u = Some r) ∧
  (last_seen r = cutoff → sweep t !! u = Some r) ∧
  (∀ v, t !! v = None → sweep t !! v = None) ∧
  sweep (sweep t) = sweep t ∧
  (∀ v now, String.ltb now cutoff = false →
     sweep (update_presence (Db None) now v true t) !! v
     = update_presence (Db None) now v true t !! v) ∧
  (∀ v now, String.ltb now cutoff = true →
     Presence.is_user_online (Db None) v
       (sweep (update_presence (Db None) now v true t)) = false) ∧
  (∀ e, Presence.cleanup_stale_presence NoDb cutoff t = t ∧
        Presence.cleanup_stale_presence (Db (Some e)) cutoff t = t).
Proof.
  intros Hr sweep. unfold sweep.
  split; [|split; [|split; [|split; [|split; [|split; [|split; [|by intros; split]]]]]]].
  - intros Hon Hlt. cbn [Presence.is_user_online].
    rewrite sweep_lookup, Hr. cbn [fmap option_fmap option_map].
    by rewrite Hlt, bool_decide_eq_true_2.
  - intros Hkeep. rewrite sweep_lookup, Hr. cbn [fmap option_fmap option_map].
    destruct Hkeep as [Hoff|Hnew].
    + by rewrite (bool_decide_eq_false_2 _ Hoff), andb_false_r.
    + by rewrite Hnew.
  - intros Hat. rewrite sweep_lookup, Hr. cbn [fmap option_fmap option_map].
    by rewrite Hat, string_ltb_irrefl.
  - intros v Hv. by rewrite sweep_lookup, Hv.
  - apply map_eq. intros v. rewrite !sweep_lookup.
    destruct (t !! v) as [r0|]; [|done]. cbn [fmap option_fmap option_map]. f_equal.
    destruct (String.ltb (last_seen r0) cutoff && bool_decide (is_online r0 = 1)) eqn:Es;
      [|by rewrite Es].
    cbn [last_seen is_online]. by rewrite andb_false_r.
  - intros v now Hnew.
    destruct (connected_row now v t) as (r1 & Hr1 & _ & Hat).
    rewrite sweep_lookup, Hr1. cbn [fmap option_fmap option_map].
    by rewrite Hat, Hnew.
  - intros v now Hold.
    destruct (connected_row now v t) as (r1 & Hr1 & Hon & Hat).
    cbn [Presence.is_user_online].
    rewrite sweep_lookup, Hr1. cbn [fmap option_fmap option_map].
    rewrite Hat, Hold, (bool_decide_eq_true_2 _ Hon). by cbn.
Qed.

(** ** The excluded user and the cached role *)

(** X16. [send_to_session] with an excluded user always returns and leaves that
    user as it was: none of its sockets is unregistered, and its role, its
    session index and the sessions it watches stay. *)
Theorem send_to_session_spares_excluded env sid m x w :
  ∃ w', send_to_session env sid m (Some x) w = (Return tt, w') ∧
        untouched x (hub w) (hub w').
Proof.
  destruct (send_to_session_returns env sid m (Some x) w) as [w' Hrun].
  exists w'. split; [done|].
  assert (∀ v, keeps (untouched x (hub w))
                 (when (bool_decide (Some v ≠ Some x)) (send_to_user env v m)))
    as Hsend.
  { intros v. case_bool_decide as Hv; cbn [when]; [|apply keeps_ret].
    intros w1 o w2. rewrite send_to_user_run. intros [= <- <-] Hw1.
    eapply untouched_trans; [exact Hw1|].
    apply after_send_to_user_untouched. congruence. }
  assert (keeps (untouched x (hub w)) (send_to_session env sid m (Some x))) as Hkeeps.
  { unfold send_to_session. apply keeps_bind.
    { intros w1 o w2. rewrite _get_session_user_id_run. by intros [= <- <-]. }
    intros [owner|]; [|apply keeps_ret].
    case_bool_decide; [apply keeps_ret|].
    apply keeps_bind; [apply Hsend|]. intros _.
    apply keeps_bind; [apply keeps_get_self|]. intros self.
    apply keeps_when. apply keeps_bind; [apply keeps_getitem|]. intros watchers.
    apply keeps_for_each_watcher. apply Hsend. }
  eapply Hkeeps; [exact Hrun | apply untouched_refl].
Qed.

(** X17. The role of a connected user is looked up once: a further [connect]
    keeps the cached roles whatever the lookup would answer now, a
    [disconnect] that leaves a socket, or names a socket the user does not
    have, keeps them too, and the [disconnect] of the only socket removes the
    user's role and takes the user offline. *)
Theorem role_cached_until_last_disconnect u l w :
  connections (hub w) !! u = Some l →
  (∀ env ws sid, ∃ w', connect env u ws sid w = (Return tt, w') ∧
                       user_roles (hub w') = user_roles (hub w)) ∧
  (∀ ws, ws ∈ l → (2 ≤ length l)%nat →
         ∃ w', disconnect u ws w = (Return tt, w') ∧
               user_roles (hub w') = user_roles (hub w)) ∧
  (∀ ws, ws ∉ l →
         ∃ w', disconnect u ws w = (Return tt, w') ∧
               user_roles (hub w') = user_roles (hub w)) ∧
  (∀ ws, l = [ws] →
         ∃ w', disconnect u ws w = (Return tt, w') ∧
               user_roles (hub w') = delete u (user_roles (hub w)) ∧
               is_user_online (hub w') u = false).
Proof.
  intros Hl. split; [|split; [|split]].
  - intros env ws sid. eexists. split; [apply connect_run|]. cbn [hub].
    by rewrite after_connect_user_roles, Hl.
  - intros ws Hin Hlen. eexists. split; [apply disconnect_run|]. cbn [hub].
    rewrite after_disconnect_user_roles. unfold drop_socket.
    rewrite Hl, bool_decide_eq_true_2 by done.
    pose proof (remove_first_length ws l Hin) as Hr.
    destruct (remove_first ws l); [cbn in Hr; lia | done].
  - intros ws Hout. eexists. split; [apply disconnect_run|]. cbn [hub].
    rewrite after_disconnect_user_roles. unfold drop_socket.
    by rewrite Hl, bool_decide_eq_false_2.
  - intros ws ->. eexists. split; [apply disconnect_run|]. cbn [hub].
    rewrite after_disconnect_user_roles. unfold is_user_online.
    rewrite after_disconnect_connections. unfold drop_socket.
    rewrite Hl, bool_decide_eq_true_2 by left. cbn. rewrite decide_True by done.
    cbn. split; [done|]. apply contains_false, lookup_delete_eq.
Qed.

(** ** Instances *)
Lemma tab_with_session_reachable : reachable tab_with_session.
Proof.
  apply (reachable_call quiet_env (Connect 1 1%positive (Some "s1"))
           (mkWorld new_manager []) (Return tt)); [|by vm_compute].
  apply reachable_new.
Qed.

Lemma two_tabs_watch_lists k l :
  session_watchers (hub two_tabs_watching) !! k = Some l → k = "s" ∧ l = [1].
Proof.
  cbn. intros Hk. destruct (decide (k = "s")) as [->|Hne].
  - vm_compute in Hk. by injection Hk as <-.
  - rewrite lookup_singleton_ne in Hk by done. discriminate.
Qed.

Lemma send_to_user_keeps_successes_witness :
  ∃ w' oks,
    send_to_user flaky_env 1 [] three_tabs = (Return tt, w') ∧
    length oks = 3%nat ∧
    wire w' = wire three_tabs ++ send_events [] [1; 2; 3]%positive oks.
Proof.
  destruct (send_to_user_keeps_successes flaky_env 1 [] three_tabs [1; 2; 3]%positive)
    as (w' & oks & Hrun & Hlen & Hwire & _); [by vm_compute|].
  by exists w', oks.
Defined.

Lemma other_users_untouched_witness :
  ∃ w', send_to_user flaky_env 1 [] routed_world = (Return tt, w') ∧
        untouched 7 (hub routed_world) (hub w').
Proof.
  apply (other_users_untouched flaky_env 1 7 routed_world). lia.
Defined.

Lemma connect_then_disconnect_witness :
  ∃ w1, connect quiet_env 2 9%positive (Some "s2") two_tabs_watching = (Return tt, w1) ∧
        disconnect 2 9%positive w1 = (Return tt, two_tabs_watching).
Proof.
  apply (connect_then_disconnect quiet_env 2 9%positive (Some "s2") two_tabs_watching).
  - apply two_tabs_watching_reachable.
  - vm_compute. by intros ?%elem_of_nil.
  - by vm_compute.
  - intros k. unfold get_session_watchers.
    destruct (session_watchers (hub two_tabs_watching) !! k) as [l|] eqn:Ek;
      [|by intros ?%elem_of_nil].
    apply two_tabs_watch_lists in Ek as [-> ->]. cbn.
    intros Hin%list_elem_of_singleton. lia.
Defined.

Lemma session_index_sound_witness :
  ∃ l, connections (hub tab_with_session) !! 1 = Some l ∧ 1%positive ∈ l.
Proof.
  destruct (session_index_sound tab_with_session tab_with_session_reachable)
    as (_ & Hreg & _).
  apply (Hreg 1 {["s1" := 1%positive]} "s1" 1%positive); by vm_compute.
Defined.

Lemma online_reads_agree_witness :
  (get_online_users_count (hub two_tabs_watching)
   ≤ get_connection_count (hub two_tabs_watching))%nat.
Proof.
  apply (online_reads_agree two_tabs_watching two_tabs_watching_reachable).
Defined.

Lemma watch_then_unwatch_witness :
  ∃ w1, add_session_watcher "s" 4 two_tabs_watching = (Return tt, w1) ∧
        get_session_watchers (hub w1) "s"
        = get_session_watchers (hub two_tabs_watching) "s" ++ [4] ∧
        remove_session_watcher "s" 4 w1 = (Return tt, two_tabs_watching).
Proof.
  apply (watch_then_unwatch "s" 4 two_tabs_watching).
  - vm_compute. intros Hin%list_elem_of_singleton. discriminate.
  - by vm_compute.
Defined.

Lemma second_watcher_skipped_after_reaping_witness :
  ∃ w2, send_to_session flaky_routed_env "s" [] None routed_world = (Return tt, w2) ∧
        get_session_watchers (hub w2) "s" = [6].
Proof.
  destruct (second_watcher_skipped_after_reaping flaky_routed_env routed_world
              "s" [] 7 5 6) as (w1 & w2 & H1 & H2 & Hfailed & _); try done.
  exists w2. apply Hfailed. exists 2%positive.
  rewrite send_to_user_run in H1. injection H1 as <-.
  rewrite send_to_user_run in H2. injection H2 as <-.
  vm_compute. left.
Defined.

Lemma presence_rows_stay_sound_witness :
  table_sound (update_presence (Db None) "2024-01-01T10:05:00" 7 false one_tab_presence).
Proof.
  apply (presence_rows_stay_sound one_tab_presence).
  intros u r Hr. destruct (decide (u = 7)) as [->|Hne].
  - vm_compute in Hr. injection Hr as <-. left. by vm_compute.
  - unfold one_tab_presence in Hr. rewrite lookup_singleton_ne in Hr by done.
    discriminate.
Defined.

Lemma presence_counts_connections_witness :
  ∃ r, presence_updates false 7 ["t3"]
         (presence_updates true 7 ["t1"; "t2"] ∅) !! 7 = Some r ∧
       connection_count r = 1 ∧ connected_at r = "t1".
Proof.
  destruct (presence_counts_connections 7 ∅ "t1" ["t2"] ["t3"])
    as [_ (r & Hr & Hcount & Hat & _)]; [apply lookup_empty|].
  by exists r.
Defined.

Lemma role_cached_until_last_disconnect_witness :
  ∃ w', connect role_down_env 1 7%positive None two_tabs_watching = (Return tt, w') ∧
        user_roles (hub w') = user_roles (hub two_tabs_watching).
Proof.
  apply (role_cached_until_last_disconnect 1 [1; 2]%positive two_tabs_watching).
  by vm_compute.
Defined.

Lemma sweep_marks_stale_offline_witness :
  Presence.cleanup_stale_presence (Db None) "2024-01-01T10:05:00" one_tab_presence !! 7
  = Some (mkPresenceRow 0 "2024-01-01T10:00:00" "2024-01-01T10:00:00" 0) ∧
  Presence.cleanup_stale_presence (Db None) "2024-01-01T09:55:00" one_tab_presence !! 7
  = Some (mkPresenceRow 1 "2024-01-01T10:00:00" "2024-01-01T10:00:00" 1).
Proof.
  split.
  - destruct (sweep_marks_stale_offline "2024-01-01T10:05:00" one_tab_presence 7
                (mkPresenceRow 1 "2024-01-01T10:00:00" "2024-01-01T10:00:00" 1))
      as [Hswept _]; [by vm_compute|].
    by apply Hswept.
  - destruct (sweep_marks_stale_offline "2024-01-01T09:55:00" one_tab_presence 7
                (mkPresenceRow 1 "2024-01-01T10:00:00" "2024-01-01T10:00:00" 1))
      as (_ & Hkept & _); [by vm_compute|].
    apply Hkept. by right.
Defined.
